(** * create-stats-csv: a shallow embedding of [scripts/create-stats-csv.py]

    The script reads per-image pixel statistics (a JSON document on standard
    input), turns every first/second-moment accumulator into a mean and a
    standard deviation, optionally adds GPS coordinates parsed from
    sexagesimal strings, and prints a table.

    Python values are modelled as the script meets them: documents produced
    by [json.load] ([json]), dictionaries as insertion-ordered association
    lists, floats as IEEE 754 binary64 numbers ([PrimFloat.float]), integers
    as [Z], strings as their UTF-8 bytes, and exceptions as an error type.
    What the script prints is modelled by the header and the cells of the
    table; how pandas formats a cell is not. *)

From Stdlib Require Import ZArith List String Ascii Bool Floats Lia.
Import ListNotations.

Set Warnings "-inexact-float,-register-all".

Local Open Scope string_scope.
Local Open Scope Z_scope.
Local Open Scope list_scope.

(** ** Exceptions and fallible computations *)

Inductive exn : Type :=
| ZeroDivisionError
| OverflowError
| TypeError
| ValueError
| IndexError
| KeyError
| OSError
| CRSError.

(** Python's [ArithmeticError] and [LookupError] base classes. *)
Definition is_ArithmeticError (e : exn) : bool :=
  match e with
  | ZeroDivisionError | OverflowError => true
  | _ => false
  end.

Definition is_LookupError (e : exn) : bool :=
  match e with
  | IndexError | KeyError => true
  | _ => false
  end.

Inductive result (A : Type) : Type :=
| Ok (a : A)
| Err (e : exn).

Arguments Ok {A} a.
Arguments Err {A} e.

Definition bind {A B : Type} (r : result A) (k : A -> result B) : result B :=
  match r with
  | Ok a => k a
  | Err e => Err e
  end.

Notation "x <- r ;; k" := (bind r (fun x => k))
  (at level 61, r at next level, right associativity).
Notation "' p <- r ;; k" := (bind r (fun p => k))
  (at level 61, p pattern, r at next level, right associativity).

Definition is_ok {A : Type} (r : result A) : bool :=
  match r with
  | Ok _ => true
  | Err _ => false
  end.

(** ** Documents and row values *)

(** What [json.load] returns: [None], [bool], [int], [float], [str], [list]
    and [dict] (keys are always strings). *)
Inductive json : Type :=
| JNull
| JBool (b : bool)
| JInt (z : Z)
| JFloat (f : float)
| JStr (s : string)
| JList (l : list json)
| JObj (d : list (string * json)).

(** What a row dictionary can hold once the script has worked on it: an
    object that came from [json.load] and was left alone, a complex number
    (only a power can produce one), or a dictionary the script has written
    derived entries into. *)
Inductive value : Type :=
| VJ (j : json)
| VComplex (re im : float)
| VDict (d : list (string * value)).

Definition row : Type := list (string * value).

(** Python dictionaries keep insertion order; assigning to a key that is
    present keeps its position. *)
Section Dict.
Context {V : Type}.

Fixpoint dict_get (k : string) (d : list (string * V)) : option V :=
  match d with
  | [] => None
  | (k', v) :: d' => if String.eqb k k' then Some v else dict_get k d'
  end.

Fixpoint dict_set (k : string) (v : V) (d : list (string * V)) : list (string * V) :=
  match d with
  | [] => [(k, v)]
  | (k', v') :: d' =>
      if String.eqb k k' then (k, v) :: d' else (k', v') :: dict_set k v d'
  end.

(** [d.update(e)]: assign every entry of [e], in order. *)
Definition dict_update (d e : list (string * V)) : list (string * V) :=
  fold_left (fun acc kv => dict_set (fst kv) (snd kv) acc) e d.

Definition dict_has (k : string) (d : list (string * V)) : bool :=
  match dict_get k d with
  | Some _ => true
  | None => false
  end.

(** [d[k]] *)
Definition getitem (k : string) (d : list (string * V)) : result V :=
  match dict_get k d with
  | Some v => Ok v
  | None => Err KeyError
  end.
End Dict.

(** A dictionary fresh from [json.load], seen as a row. *)
Definition row_of_obj (d : list (string * json)) : row :=
  map (fun kv => (fst kv, VJ (snd kv))) d.

(** ** Host arithmetic *)

(** An integer as an exact (unrounded) binary float. *)
Definition Z2SF (z : Z) : spec_float :=
  match z with
  | Z0 => S754_zero false
  | Zpos p => S754_finite false p 0
  | Zneg p => S754_finite true p 0
  end.

(** [float(n)] for an [int]: rounded to nearest, ties to even;
    [OverflowError] when the integer is too large for a double. *)
Definition float_of_int (z : Z) : result float :=
  let f := SF2Prim (binary_normalize prec emax z 0 false) in
  if is_infinity f then Err OverflowError else Ok f.

(** [a / b] on two [int]s: the correctly rounded quotient. *)
Definition long_true_divide (a b : Z) : result float :=
  if b =? 0 then Err ZeroDivisionError
  else
    let f := SF2Prim (SFdiv prec emax (Z2SF a) (Z2SF b)) in
    if is_infinity f then Err OverflowError else Ok f.

(** [a / b] on two [float]s. *)
Definition float_div (a b : float) : result float :=
  if (b =? 0)%float then Err ZeroDivisionError else Ok (a / b)%float.

(** The real numbers [json.load] can produce; [bool] is a subclass of
    [int]. *)
Inductive real : Type :=
| RInt (z : Z)
| RFloat (f : float).

Definition as_real (j : json) : option real :=
  match j with
  | JBool b => Some (RInt (Z.b2z b))
  | JInt z => Some (RInt z)
  | JFloat f => Some (RFloat f)
  | _ => None
  end.

(** [a / b] on two objects read by [json.load].  With a [float] on either
    side the other operand is converted first (left operand before right)
    and the divisor is tested afterwards. *)
Definition py_truediv (a b : json) : result float :=
  match as_real a, as_real b with
  | Some (RInt x), Some (RInt y) => long_true_divide x y
  | Some (RInt x), Some (RFloat y) => fx <- float_of_int x ;; float_div fx y
  | Some (RFloat x), Some (RInt y) => fy <- float_of_int y ;; float_div x fy
  | Some (RFloat x), Some (RFloat y) => float_div x y
  | _, _ => Err TypeError
  end.

(** ** External collaborators

    The C library's [pow], Python's complex power (itself built on the C
    library's [hypot], [atan2], [cos] and [sin]), pyproj's
    [Transformer.from_crs] with the [transform] method of what it returns,
    and what [json.load(open(p))] reads, [p] being a path or, when it is an
    integer, a file descriptor. *)

Definition transformer : Type := float -> float -> result (float * float).

Record env : Type := {
  libm_pow : float -> float -> float;
  complex_pow : float * float -> float * float -> result (float * float);
  from_crs : Z -> Z -> result transformer;
  load_file : string -> result json;
  load_fd : Z -> result json
}.

(** ** Moment normaliser *)

Section Normalize.
Variable E : env.

Local Open Scope float_scope.

(** [v ** 0.5] on a [float] [v], following CPython's [float_pow] with
    the exponent fixed to the literal of the script: NaN is returned as is,
    an infinity gives [+inf], a zero gives [0.0], a negative number raised
    to this fractional power is handed to the complex power, [1.0] gives
    [1.0], and only the remaining finite positive numbers reach the C
    library's [pow], whose infinite results are reported as
    [OverflowError]. *)
Definition float_pow_half (v : float) : result value :=
  if is_nan v then Ok (VJ (JFloat v))
  else if is_infinity v then Ok (VJ (JFloat (abs v)))
  else if v =? 0 then Ok (VJ (JFloat 0))
  else if v <? 0 then
    '(re, im) <- complex_pow E (v, 0) (0.5, 0) ;; Ok (VComplex re im)
  else if v =? 1 then Ok (VJ (JFloat 1))
  else
    let ix := libm_pow E v 0.5 in
    if is_infinity ix then Err OverflowError else Ok (VJ (JFloat ix)).

(** The keyword arguments of [st.update(mean=mean, std_dev=std)]. *)
Definition derived (mean : float) (std : value) : row :=
  [("mean", VJ (JFloat mean)); ("std_dev", std)].

(** The variance as line 25 computes it from [sum_2 / count] and the mean. *)
Definition variance (q mean : float) : float := q - mean * mean.

(** [normalize_stats(st)].  Subscripting anything but a [dict] with a string
    is a [TypeError].  The dictionary is updated in place and returned; the
    model returns the updated dictionary. *)
Definition normalize_stats (st : json) : result row :=
  match st with
  | JObj d =>
      count <- getitem "count" d ;;
      s <- getitem "sum" d ;;
      mean <- py_truediv s count ;;
      s2 <- getitem "sum_2" d ;;
      q <- py_truediv s2 count ;;
      let var := variance q mean in
      std <- float_pow_half var ;;
      Ok (dict_update (row_of_obj d) (derived mean std))
  | _ => Err TypeError
  end.
End Normalize.

(** ** Geodetic resolver *)

(** A Python [str] is held as the bytes of its UTF-8 encoding.  Every byte
    of a non-ASCII character is above 127, so it is neither an ASCII digit
    nor a dot nor a letter: splitting on the pattern and comparing the last
    character with an ASCII letter give the same answers on bytes as on code
    points. *)

Definition is_digit (c : ascii) : bool :=
  let n := N_of_ascii c in ((48 <=? n) && (n <=? 57))%N.

Definition is_dot (c : ascii) : bool := (N_of_ascii c =? 46)%N.

(** The character class of [GPS_RE = re.compile('[^0-9.]+')]. *)
Definition GPS_RE_class (c : ascii) : bool := negb (is_digit c || is_dot c).

(** [GPS_RE.split(s)] scanned from a position of [s]: [in_match] says
    whether the previous character belonged to a match of the pattern.  The
    head of the result is what remains of the current fragment. *)
Fixpoint re_split (in_match : bool) (s : string) : list string :=
  match s with
  | EmptyString => [EmptyString]
  | String c r =>
      if GPS_RE_class c then
        if in_match then re_split true r else EmptyString :: re_split true r
      else
        match re_split false r with
        | f :: fs => String c f :: fs
        | [] => [String c EmptyString]
        end
  end.

(** [GPS_RE.split(deg_str)]: the pieces between the matches, in order, the
    possibly empty pieces before the first and after the last match
    included. *)
Definition GPS_RE_split (s : string) : list string := re_split false s.

Definition nonempty (s : string) : bool := negb (String.eqb s EmptyString).


(** Digits before and after the dot of a fragment: the integer the digits
    spell, the number of digits after the dot, whether a dot and whether a
    digit has been read. *)
Fixpoint scan_decimal (s : string) (n : Z) (k : nat) (dot digit : bool)
  : option (Z * nat) :=
  match s with
  | EmptyString => if digit then Some (n, k) else None
  | String c r =>
      if is_digit c then
        scan_decimal r (10 * n + (Z.of_N (N_of_ascii c) - 48))
          (if dot then S k else k) dot true
      else if is_dot c then
        if dot then None else scan_decimal r n k true digit
      else None
  end.

(** [float(f)] for a fragment [f] of the split, a string of ASCII digits
    and dots: digits with at most one dot and at least one digit are read as
    the nearest double, anything else (the empty string, a lone dot, two
    dots) is a [ValueError]. *)
Definition float_of_fragment (f : string) : result float :=
  match scan_decimal f 0 0 false false with
  | Some (n, k) =>
      Ok (SF2Prim (SFdiv prec emax (Z2SF n) (Z2SF (10 ^ Z.of_nat k))))
  | None => Err ValueError
  end.

(** Whether every character of a string satisfies a test. *)
Fixpoint all_chars (p : ascii -> bool) (s : string) : bool :=
  match s with
  | EmptyString => true
  | String c r => p c && all_chars p r
  end.

Definition numeric_char (c : ascii) : bool := is_digit c || is_dot c.

(** A fragment [float] accepts. *)
Definition is_number (f : string) : bool := is_ok (float_of_fragment f).

(** [l[i]] on a list. *)
Definition list_index {A : Type} (l : list A) (i : nat) : result A :=
  match nth_error l i with
  | Some a => Ok a
  | None => Err IndexError
  end.

(** [s[-1]] *)
Fixpoint last_char (s : string) : result ascii :=
  match s with
  | EmptyString => Err IndexError
  | String c EmptyString => Ok c
  | String _ r => last_char r
  end.

(** [deg_str[-1] == "S" or deg_str[-1] == "W"] *)
Definition southern_or_western (c : ascii) : bool :=
  Ascii.eqb c "S" || Ascii.eqb c "W".

(** [degree_to_float(deg_str)], operands evaluated left to right. *)
Definition degree_to_float (deg_str : string) : result float :=
  let deg_comps := GPS_RE_split deg_str in
  c0 <- list_index deg_comps 0 ;;
  d <- float_of_fragment c0 ;;
  c1 <- list_index deg_comps 1 ;;
  m <- float_of_fragment c1 ;;
  c2 <- list_index deg_comps 2 ;;
  sec <- float_of_fragment c2 ;;
  let deg_float := (d + m / 60 + sec / 3600)%float in
  h <- last_char deg_str ;;
  Ok (if southern_or_western h then (- deg_float)%float else deg_float).

(** [degree_to_float] on an object of the EXIF document: the pattern's
    [split] accepts only a string. *)
Definition degree_of_json (j : json) : result float :=
  match j with
  | JStr s => degree_to_float s
  | _ => Err TypeError
  end.

(** [st[k]] where [st] is any object read by [json.load]: only a [dict]
    can be subscripted with a string. *)
Definition subscript (k : string) (st : json) : result json :=
  match st with
  | JObj d => getitem k d
  | _ => Err TypeError
  end.

Section Geo.
Variable E : env.

(** [json.load(open(stat['path']))]: [open] takes a string, or an integer
    (a [bool] is one) as a file descriptor, and nothing else. *)
Definition load_exif (stat : row) : result json :=
  p <- getitem "path" stat ;;
  match p with
  | VJ (JStr path) => load_file E path
  | VJ (JInt fd) => load_fd E fd
  | VJ (JBool b) => load_fd E (Z.b2z b)
  | _ => Err TypeError
  end.

(** [if isinstance(exif, list): exif = exif[0]] *)
Definition first_if_list (exif : json) : result json :=
  match exif with
  | JList l => list_index l 0
  | _ => Ok exif
  end.

(** [add_gps_coords(stat, proj_t)]; [stat] is updated in place, the model
    returns it. *)
Definition add_gps_coords (stat : row) (proj_t : option transformer) : result row :=
  exif <- load_exif stat ;;
  exif <- first_if_list exif ;;
  lat_s <- subscript "GPSLatitude" exif ;;
  lat <- degree_of_json lat_s ;;
  lon_s <- subscript "GPSLongitude" exif ;;
  lon <- degree_of_json lon_s ;;
  let stat := dict_set "latitude" (VJ (JFloat lat)) stat in
  let stat := dict_set "longitude" (VJ (JFloat lon)) stat in
  match proj_t with
  | Some t =>
      '(east, north) <- t lat lon ;;
      let stat := dict_set "easting" (VJ (JFloat east)) stat in
      Ok (dict_set "northing" (VJ (JFloat north)) stat)
  | None => Ok stat
  end.
End Geo.

(** ** Report assembler *)

(** The parsed command line: [-g/--gps] is a flag, [--epsg] an optional
    integer ([None] when the option is not given). *)
Record args : Type := {
  gps : bool;
  epsg : option Z
}.

(** A [pandas.DataFrame] built from a list of dictionaries: its columns are
    the keys of the dictionaries, each listed once in order of first
    appearance; a row that lacks a column has a missing value there. *)
Record frame : Type := {
  columns : list string;
  data : list row
}.

Definition add_keys (cols : list string) (r : row) : list string :=
  fold_left
    (fun acc kv => if existsb (String.eqb (fst kv)) acc then acc else acc ++ [fst kv])
    r cols.

Definition DataFrame (rows : list row) : frame :=
  {| columns := fold_left add_keys rows []; data := rows |}.

(** What [to_csv(sys.stdout, index=False)] prints: the header and one line
    per row; [None] is a missing value, printed as an empty field.  A cell
    holds the object the row dictionary has under the column; the type
    pandas gives a column when it builds the frame (an [int] column with a
    missing value becomes a column of floats) is not modelled, so the table
    says which cells are present and what strings and floats they hold, not
    how an integer is printed. *)
Record table : Type := {
  header : list string;
  body : list (list (option value))
}.

Definition select_row (cols : list string) (r : row) : list (option value) :=
  map (fun c => dict_get c r) cols.

(** [df[cols]]: every label has to be a column of the frame, or the
    selection raises [KeyError]. *)
Definition select (df : frame) (cols : list string) : result table :=
  if forallb (fun c => existsb (String.eqb c) (columns df)) cols then
    Ok {| header := cols; body := map (select_row cols) (data df) |}
  else Err KeyError.

Definition base_cols : list string :=
  ["path"; "width"; "height"; "min"; "max"; "mean"; "std_dev"].

Definition geo_cols : list string := ["latitude"; "longitude"].

Definition proj_cols : list string := ["easting"; "northing"].

(** Lines 69 to 73: the columns the run selects. *)
Definition output_cols (a : args) : list string :=
  if gps a then
    match epsg a with
    | Some _ => base_cols ++ geo_cols ++ proj_cols
    | None => base_cols ++ geo_cols
    end
  else base_cols.

(** [for x in o] over an object read by [json.load]: a list gives its
    items, a dictionary its keys, a string its characters; nothing else can
    be iterated. *)
Definition iterate (o : json) : result (list json) :=
  match o with
  | JList l => Ok l
  | JObj d => Ok (map (fun kv => JStr (fst kv)) d)
  | JStr s => Ok (map (fun c => JStr (String c EmptyString)) (list_ascii_of_string s))
  | _ => Err TypeError
  end.

(** Run a fallible step over a list, left to right, stopping at the first
    failure. *)
Fixpoint map_result {A B : Type} (f : A -> result B) (l : list A) : result (list B) :=
  match l with
  | [] => Ok []
  | a :: l' => b <- f a ;; bs <- map_result f l' ;; Ok (b :: bs)
  end.

Section Main.
Variable E : env.

(** Lines 53 to 55: [args.gps and args.epsg] is true only for a given,
    nonzero code. *)
Definition make_transformer (a : args) : result (option transformer) :=
  if gps a then
    match epsg a with
    | Some code =>
        if code =? 0 then Ok None
        else t <- from_crs E 4326 code ;; Ok (Some t)
    | None => Ok None
    end
  else Ok None.

(** The body of the loop, lines 59 to 61.  [normalize_stats] has updated
    the dictionary under ['stats'] in place, so the record holds the updated
    dictionary there before its entries are copied into the record. *)
Definition process_record (a : args) (proj_t : option transformer) (im_stat : json)
  : result row :=
  match im_stat with
  | JObj d =>
      stats <- getitem "stats" d ;;
      stat <- normalize_stats E stats ;;
      let r := dict_set "stats" (VDict stat) (row_of_obj d) in
      let r := dict_update r stat in
      if gps a then add_gps_coords E r proj_t else Ok r
  | _ => Err TypeError
  end.

(** Lines 64 and 65. *)
Definition cumulative_row (cumulative : json) : result row :=
  tot <- normalize_stats E cumulative ;;
  Ok (dict_set "path" (VJ (JStr "cumulative")) tot).

(** [main()], from the parsed arguments and the document on standard input
    to the printed table. *)
Definition main (a : args) (stats_json : json) : result table :=
  proj_t <- make_transformer a ;;
  image_stats <- subscript "image_stats" stats_json ;;
  items <- iterate image_stats ;;
  df <- map_result (process_record a proj_t) items ;;
  cumulative <- subscript "cumulative" stats_json ;;
  tot <- cumulative_row cumulative ;;
  select (DataFrame (df ++ [tot])) (output_cols a).
End Main.

(** An object read by [json.load] that, if it is a dictionary, has neither
    of the given keys. *)
Definition lacks (keys : list string) (j : json) : bool :=
  match j with
  | JObj d => forallb (fun k => negb (dict_has k d)) keys
  | _ => true
  end.

(** An image record that does not bring the given keys along, neither
    itself nor in its statistics. *)
Definition record_lacks (keys : list string) (im_stat : json) : bool :=
  lacks keys im_stat &&
  match im_stat with
  | JObj d =>
      match dict_get "stats" d with
      | Some stats => lacks keys stats
      | None => true
      end
  | _ => true
  end.

(** ** A concrete environment and concrete inputs *)

(** The double quote character, for seconds marks. *)
Definition dquote : string := String "034" EmptyString.

Definition lat_text : string := ("40°26'46" ++ dquote ++ "N")%string.
Definition lon_text : string := ("79°58'56" ++ dquote ++ "W")%string.

Definition exif_doc : json :=
  JObj [("GPSLatitude", JStr lat_text); ("GPSLongitude", JStr lon_text)].

(** The cosine of the double nearest to pi/2, in binary64. *)
Definition cos_half_pi : float := 0x1.1a62633145c07p-54%float.

(** An environment to run the model in.  [pow] at exponent one half is the
    correctly rounded square root (the script uses no other exponent).  The
    complex power of a negative real [x] to one half is what CPython's
    [_Py_c_pow] computes: modulus [pow(hypot(x, 0), 0.5)], angle
    [atan2(0, x) * 0.5], the double nearest to pi/2, whose sine is [1].
    Projecting EPSG:4326 to itself leaves the coordinates as they are; other
    codes are refused.  One file exists, ["a.jpg"], holding [exif_doc]; no
    file descriptor can be read. *)
Definition sample_env : env := {|
  libm_pow := fun x y => if (y =? 0.5)%float then sqrt x else nan;
  complex_pow := fun a b =>
    let len := sqrt (abs (fst a)) in
    Ok ((len * cos_half_pi)%float, (len * 1)%float);
  from_crs := fun src dst =>
    if (src =? 4326) && (dst =? 4326) then Ok (fun lat lon => Ok (lat, lon))
    else Err CRSError;
  load_file := fun p => if String.eqb p "a.jpg" then Ok exif_doc else Err OSError;
  load_fd := fun _ => Err OSError
|}.

(** The accumulator of the specification's scenario. *)
Definition acc4 : json :=
  JObj [("count", JInt 4); ("sum", JInt 40); ("sum_2", JInt 408);
        ("min", JInt 1); ("max", JInt 19)].

(** Three pixels of intensity 0.1 each, accumulated in binary64:
    [sum = 0.1 + 0.1 + 0.1] and [sum_2 = 0.1*0.1 + 0.1*0.1 + 0.1*0.1]. *)
Definition acc_tenths : json :=
  JObj [("count", JInt 3);
        ("sum", JFloat 0.30000000000000004);
        ("sum_2", JFloat 0.030000000000000006);
        ("min", JFloat 0.1); ("max", JFloat 0.1)].

Definition acc_empty : json :=
  JObj [("count", JInt 0); ("sum", JInt 0); ("sum_2", JInt 0);
        ("min", JInt 0); ("max", JInt 0)].

Definition record_a : json :=
  JObj [("path", JStr "a.jpg"); ("width", JInt 10); ("height", JInt 10);
        ("stats", acc4)].

Definition scenario : json :=
  JObj [("image_stats", JList [record_a]); ("cumulative", acc4)].

Definition no_images : json :=
  JObj [("image_stats", JList []); ("cumulative", acc4)].

(** The tables the scenario prints in the three modes. *)
Definition cells_a : list (option value) :=
  [Some (VJ (JStr "a.jpg")); Some (VJ (JInt 10)); Some (VJ (JInt 10));
   Some (VJ (JInt 1)); Some (VJ (JInt 19)); Some (VJ (JFloat 10));
   Some (VJ (JFloat 1.4142135623730951))].

Definition cells_cumulative : list (option value) :=
  [Some (VJ (JStr "cumulative")); None; None;
   Some (VJ (JInt 1)); Some (VJ (JInt 19)); Some (VJ (JFloat 10));
   Some (VJ (JFloat 1.4142135623730951))].

Definition cells_position : list (option value) :=
  [Some (VJ (JFloat 40.446111111111108));
   Some (VJ (JFloat (-79.982222222222219)))].

Definition table_plain : table :=
  {| header := base_cols; body := [cells_a; cells_cumulative] |}.

Definition table_located : table :=
  {| header := base_cols ++ geo_cols;
     body := [cells_a ++ cells_position; cells_cumulative ++ [None; None]] |}.

Definition table_projected : table :=
  {| header := base_cols ++ geo_cols ++ proj_cols;
     body := [cells_a ++ cells_position ++ cells_position;
              cells_cumulative ++ [None; None; None; None]] |}.

(** The sample environment with every file, file descriptor and
    coordinate system taken away. *)
Definition offline_env : env := {|
  libm_pow := libm_pow sample_env;
  complex_pow := complex_pow sample_env;
  from_crs := fun _ _ => Err CRSError;
  load_file := fun _ => Err OSError;
  load_fd := fun _ => Err OSError
|}.

(** A record whose accumulator is empty, and a document that has it between
    two good records. *)
Definition record_empty : json :=
  JObj [("path", JStr "b.jpg"); ("width", JInt 10); ("height", JInt 10);
        ("stats", acc_empty)].

Definition scenario_bad_record : json :=
  JObj [("image_stats", JList [record_a; record_empty; record_a]);
        ("cumulative", acc4)].

(** A document whose [image_stats] is an object instead of a list. *)
Definition scenario_keyed : json :=
  JObj [("image_stats", JObj [("a.jpg", record_a)]); ("cumulative", acc4)].

(** The sample environment with the document of ["a.jpg"] wrapped in a
    list, as some EXIF exporters write it. *)
Definition wrapped_env : env := {|
  libm_pow := libm_pow sample_env;
  complex_pow := complex_pow sample_env;
  from_crs := from_crs sample_env;
  load_file := fun p =>
    if String.eqb p "a.jpg" then Ok (JList [exif_doc]) else Err OSError;
  load_fd := load_fd sample_env
|}.

(** The sample environment without any coordinate system. *)
Definition flat_env : env := {|
  libm_pow := libm_pow sample_env;
  complex_pow := complex_pow sample_env;
  from_crs := fun _ _ => Err CRSError;
  load_file := load_file sample_env;
  load_fd := load_fd sample_env
|}.

(** A record that has a [min] of its own beside the one of its statistics. *)
Definition record_shadowed : json :=
  JObj [("path", JStr "a.jpg"); ("width", JInt 10); ("height", JInt 10);
        ("min", JInt 7); ("stats", acc4)].

(** A second record and a document with both records, in this order; the
    cumulative accumulator is the sum of the two. *)
Definition acc_b : json :=
  JObj [("count", JInt 4); ("sum", JInt 40); ("sum_2", JInt 416);
        ("min", JInt 8); ("max", JInt 12)].

Definition record_b : json :=
  JObj [("path", JStr "b.jpg"); ("width", JInt 20); ("height", JInt 5);
        ("stats", acc_b)].

Definition acc_both : json :=
  JObj [("count", JInt 8); ("sum", JInt 80); ("sum_2", JInt 824);
        ("min", JInt 1); ("max", JInt 19)].

Definition scenario_two : json :=
  JObj [("image_stats", JList [record_a; record_b]); ("cumulative", acc_both)].

Definition cells_b : list (option value) :=
  [Some (VJ (JStr "b.jpg")); Some (VJ (JInt 20)); Some (VJ (JInt 5));
   Some (VJ (JInt 8)); Some (VJ (JInt 12)); Some (VJ (JFloat 10));
   Some (VJ (JFloat 2))].

Definition cells_both : list (option value) :=
  [Some (VJ (JStr "cumulative")); None; None;
   Some (VJ (JInt 1)); Some (VJ (JInt 19)); Some (VJ (JFloat 10));
   Some (VJ (JFloat 1.7320508075688772))].

Definition table_two : table :=
  {| header := base_cols; body := [cells_a; cells_b; cells_both] |}.

(** * Properties *)

(** ** Dictionaries *)

Section DictFacts.
Context {V : Type}.
Implicit Types (d e : list (string * V)) (k : string) (v : V).

Lemma dict_get_set_eq : forall d k v, dict_get k (dict_set k v d) = Some v.
Proof.
  induction d as [|[k' v'] d IH]; intros k v; simpl.
  - now rewrite String.eqb_refl.
  - destruct (String.eqb k k') eqn:Hk; simpl.
    + now rewrite String.eqb_refl.
    + rewrite Hk. apply IH.
Qed.

Lemma dict_get_set_ne :
  forall d k k' v, k <> k' -> dict_get k (dict_set k' v d) = dict_get k d.
Proof.
  induction d as [|[k0 v0] d IH]; intros k k' v Hne; simpl.
  - apply String.eqb_neq in Hne. now rewrite Hne.
  - destruct (String.eqb k' k0) eqn:Hk'; simpl.
    + apply String.eqb_eq in Hk'. subst k0.
      apply String.eqb_neq in Hne. now rewrite Hne.
    + destruct (String.eqb k k0); [reflexivity | now apply IH].
Qed.

Lemma dict_get_update_absent :
  forall e d k, dict_get k e = None -> dict_get k (dict_update d e) = dict_get k d.
Proof.
  unfold dict_update.
  induction e as [|[k' v'] e IH]; intros d k Hk; simpl in *; [reflexivity|].
  destruct (String.eqb k k') eqn:Hkk; [discriminate|].
  rewrite IH by assumption.
  apply dict_get_set_ne. now apply String.eqb_neq.
Qed.

Lemma dict_get_in_keys :
  forall d k, In k (map fst d) -> dict_get k d <> None.
Proof.
  induction d as [|[k' v'] d IH]; intros k Hin; simpl in *; [contradiction|].
  destruct (String.eqb k k') eqn:Hk; [discriminate|].
  destruct Hin as [->|Hin]; [now rewrite String.eqb_refl in Hk | now apply IH].
Qed.
End DictFacts.

Lemma dict_get_row_of_obj :
  forall d k, dict_get k (row_of_obj d) = option_map VJ (dict_get k d).
Proof.
  induction d as [|[k' j] d IH]; intros k; simpl; [reflexivity|].
  destruct (String.eqb k k'); [reflexivity | apply IH].
Qed.

(** ** Comparisons of binary64 numbers *)

Lemma SFcompare_finite_refl :
  forall s m e, SFcompare (S754_finite s m e) (S754_finite s m e) = Some Eq.
Proof.
  intros s m e. simpl.
  rewrite Z.compare_refl, Pos.compare_cont_refl. now destruct s.
Qed.

Lemma Prim2SF_zero : Prim2SF 0 = S754_zero false.
Proof. reflexivity. Qed.

Lemma Prim2SF_infinity : Prim2SF infinity = S754_infinity false.
Proof. reflexivity. Qed.

(** A number below zero is not a NaN and not a zero. *)
Lemma negative_classes :
  forall v : float,
    (v <? 0)%float = true -> is_nan v = false /\ (v =? 0)%float = false.
Proof.
  intros v Hlt. unfold is_nan.
  rewrite ltb_spec, Prim2SF_zero in Hlt. rewrite !eqb_spec, Prim2SF_zero.
  unfold SFltb, SFeqb in *.
  destruct (Prim2SF v) as [s| s| |s m e]; try discriminate.
  - destruct s; [split; reflexivity | discriminate].
  - rewrite SFcompare_finite_refl. destruct s; [split; reflexivity | discriminate].
Qed.

(** A number above zero is not a NaN, not a zero and not below zero. *)
Lemma positive_classes :
  forall v : float,
    (0 <? v)%float = true ->
    is_nan v = false /\ (v =? 0)%float = false /\ (v <? 0)%float = false.
Proof.
  intros v Hlt. unfold is_nan.
  rewrite ltb_spec, Prim2SF_zero in Hlt.
  rewrite !eqb_spec, ltb_spec, Prim2SF_zero.
  unfold SFltb, SFeqb in *.
  destruct (Prim2SF v) as [s| s| |s m e]; try discriminate.
  - destruct s; [discriminate | repeat split; reflexivity].
  - rewrite SFcompare_finite_refl. destruct s; [discriminate | repeat split; reflexivity].
Qed.

(** A zero of either sign is neither a NaN nor an infinity. *)
Lemma zero_classes :
  forall v : float,
    (v =? 0)%float = true -> is_nan v = false /\ is_infinity v = false.
Proof.
  intros v Hz. unfold is_nan, is_infinity.
  rewrite eqb_spec, Prim2SF_zero in Hz.
  rewrite !eqb_spec, abs_spec, Prim2SF_infinity.
  unfold SFeqb in *.
  destruct (Prim2SF v) as [s| s| |s m e]; try discriminate.
  - split; reflexivity.
  - destruct s; discriminate.
  - destruct s; discriminate.
Qed.

(** ** Moment normaliser *)

Section NormalizeFacts.
Variable E : env.

(** Once the three entries are found and the two quotients exist, all that
    can still fail is the power. *)
Lemma normalize_stats_unfold :
  forall d count s s2 mean q,
    dict_get "count" d = Some count ->
    dict_get "sum" d = Some s ->
    dict_get "sum_2" d = Some s2 ->
    py_truediv s count = Ok mean ->
    py_truediv s2 count = Ok q ->
    normalize_stats E (JObj d) =
      (std <- float_pow_half E (variance q mean) ;;
       Ok (dict_update (row_of_obj d) (derived mean std))).
Proof.
  intros d count s s2 mean q Hc Hs Hs2 Hm Hq.
  unfold normalize_stats, getitem.
  rewrite Hc, Hs, Hs2. simpl. rewrite Hm. simpl. rewrite Hq. reflexivity.
Qed.

Lemma normalize_stats_inv :
  forall st r,
    normalize_stats E st = Ok r ->
    exists d count s s2 mean q std,
      st = JObj d /\
      dict_get "count" d = Some count /\
      dict_get "sum" d = Some s /\
      dict_get "sum_2" d = Some s2 /\
      py_truediv s count = Ok mean /\
      py_truediv s2 count = Ok q /\
      float_pow_half E (variance q mean) = Ok std /\
      r = dict_update (row_of_obj d) (derived mean std).
Proof.
  intros st r H. destruct st as [| | | | | |d]; try discriminate.
  unfold normalize_stats, getitem in H.
  destruct (dict_get "count" d) as [count|] eqn:Hc; [|discriminate].
  destruct (dict_get "sum" d) as [s|] eqn:Hs; [|discriminate].
  simpl in H.
  destruct (py_truediv s count) as [mean|] eqn:Hm; [|discriminate].
  simpl in H.
  destruct (dict_get "sum_2" d) as [s2|] eqn:Hs2; [|discriminate].
  simpl in H.
  destruct (py_truediv s2 count) as [q|] eqn:Hq; [|discriminate].
  simpl in H.
  destruct (float_pow_half E (variance q mean)) as [std|] eqn:Hp; [|discriminate].
  simpl in H. injection H as <-.
  exists d, count, s, s2, mean, q, std. repeat split; assumption.
Qed.

(** What [normalize_stats] leaves in the dictionary under any key other
    than the two it assigns. *)
Lemma normalize_stats_other_keys :
  forall st r k,
    normalize_stats E st = Ok r ->
    k <> "mean" -> k <> "std_dev" ->
    exists d, st = JObj d /\ dict_get k r = option_map VJ (dict_get k d).
Proof.
  intros st r k H Hm Hs.
  destruct (normalize_stats_inv _ _ H)
    as (d & count & s & s2 & mean & q & std & -> & _ & _ & _ & _ & _ & _ & ->).
  exists d. split; [reflexivity|].
  unfold dict_update, derived. simpl.
  rewrite !dict_get_set_ne by assumption.
  apply dict_get_row_of_obj.
Qed.

Lemma float_pow_half_zero :
  forall v, (v =? 0)%float = true -> float_pow_half E v = Ok (VJ (JFloat 0)).
Proof.
  intros v Hz. unfold float_pow_half.
  destruct (zero_classes v Hz) as [-> ->]. now rewrite Hz.
Qed.

Lemma float_pow_half_negative :
  forall v,
    (v <? 0)%float = true -> is_infinity v = false ->
    float_pow_half E v =
      ('(re, im) <- complex_pow E (v, 0%float) (0.5%float, 0%float) ;;
       Ok (VComplex re im)).
Proof.
  intros v Hlt Hinf. unfold float_pow_half.
  destruct (negative_classes v Hlt) as [-> ->]. now rewrite Hinf, Hlt.
Qed.

Lemma float_pow_half_positive :
  forall v,
    (0 <? v)%float = true -> is_infinity v = false ->
    float_pow_half E v =
      if (v =? 1)%float then Ok (VJ (JFloat 1))
      else
        let ix := libm_pow E v 0.5 in
        if is_infinity ix then Err OverflowError else Ok (VJ (JFloat ix)).
Proof.
  intros v Hlt Hinf. unfold float_pow_half.
  destruct (positive_classes v Hlt) as (-> & -> & ->). now rewrite Hinf.
Qed.
End NormalizeFacts.

(** C1, as the code has it: for an accumulator whose entries are found and
    whose quotients [sum / count] and [sum_2 / count] exist, the standard
    deviation is the power [variance ** 0.5] of
    [variance = sum_2 / count - mean * mean], with no clamp.  A zero variance
    gives [0.0]; a negative finite variance gives the complex number that the
    complex power returns (or the failure of that power), never a float; a
    positive finite variance gives [1.0] for [1.0] and otherwise the C
    library's [pow(variance, 0.5)], reported as [OverflowError] when
    infinite. *)
Theorem normalize_std_dev_is_unclamped_power :
  forall (E : env) d count s s2 mean q,
    dict_get "count" d = Some count ->
    dict_get "sum" d = Some s ->
    dict_get "sum_2" d = Some s2 ->
    py_truediv s count = Ok mean ->
    py_truediv s2 count = Ok q ->
    let var := variance q mean in
    let updated std := dict_update (row_of_obj d) (derived mean std) in
    ((var =? 0)%float = true ->
       normalize_stats E (JObj d) = Ok (updated (VJ (JFloat 0)))) /\
    ((var <? 0)%float = true -> is_infinity var = false ->
       normalize_stats E (JObj d) =
         ('(re, im) <- complex_pow E (var, 0%float) (0.5%float, 0%float) ;;
          Ok (updated (VComplex re im)))) /\
    ((0 <? var)%float = true -> is_infinity var = false ->
       normalize_stats E (JObj d) =
         if (var =? 1)%float then Ok (updated (VJ (JFloat 1)))
         else
           let ix := libm_pow E var 0.5 in
           if is_infinity ix then Err OverflowError
           else Ok (updated (VJ (JFloat ix)))).
Proof.
  intros E d count s s2 mean q Hc Hs Hs2 Hm Hq var updated.
  rewrite (normalize_stats_unfold E d count s s2 mean q Hc Hs Hs2 Hm Hq).
  fold var. repeat split.
  - intros Hz. now rewrite float_pow_half_zero.
  - intros Hlt Hinf. rewrite float_pow_half_negative by assumption.
    destruct (complex_pow E (var, 0%float) (0.5%float, 0%float)) as [[re im]|e];
      reflexivity.
  - intros Hlt Hinf. rewrite float_pow_half_positive by assumption.
    destruct (var =? 1)%float; [reflexivity|].
    simpl. destruct (is_infinity (libm_pow E var 0.5)); reflexivity.
Qed.

(** The complex branch is reached whatever the environment: on the three
    pixels of intensity 0.1 a run can only store a complex number. *)
Lemma tenths_std_dev_never_float :
  forall (E : env) r,
    normalize_stats E acc_tenths = Ok r ->
    exists re im, dict_get "std_dev" r = Some (VComplex re im).
Proof.
  intros E r H.
  unfold acc_tenths in H.
  rewrite (normalize_stats_unfold E _ (JInt 3) (JFloat 0.30000000000000004)
             (JFloat 0.030000000000000006) 0.10000000000000002%float
             0.010000000000000002%float) in H by reflexivity.
  rewrite float_pow_half_negative in H by reflexivity.
  destruct (complex_pow E _ _) as [[re im]|e]; [|discriminate].
  simpl in H. injection H as <-. exists re, im. reflexivity.
Qed.

Lemma normalize_tenths_witness :
  normalize_stats sample_env acc_tenths =
    Ok (dict_update
          (row_of_obj
             [("count", JInt 3);
              ("sum", JFloat 0.30000000000000004);
              ("sum_2", JFloat 0.030000000000000006);
              ("min", JFloat 0.1); ("max", JFloat 0.1)])
          (derived 0.10000000000000002
             (VComplex 8.0648442379710582e-26 1.3170890159654386e-09))).
Proof.
  exact (proj1 (proj2
    (normalize_std_dev_is_unclamped_power sample_env
       [("count", JInt 3);
        ("sum", JFloat 0.30000000000000004);
        ("sum_2", JFloat 0.030000000000000006);
        ("min", JFloat 0.1); ("max", JFloat 0.1)]
       (JInt 3) (JFloat 0.30000000000000004) (JFloat 0.030000000000000006)
       0.10000000000000002%float 0.010000000000000002%float
       eq_refl eq_refl eq_refl eq_refl eq_refl)) eq_refl eq_refl).
Defined.

(** C1 as stated fails: the variance of three pixels of intensity 0.1 comes
    out as a small negative double, where [sqrt(max(variance, 0))] is [0.0];
    the stored standard deviation is a complex number with a nonzero
    imaginary part. *)
Lemma tenths_variance_negative_std_dev_complex :
  py_truediv (JFloat 0.30000000000000004) (JInt 3) = Ok 0.10000000000000002%float /\
  py_truediv (JFloat 0.030000000000000006) (JInt 3) = Ok 0.010000000000000002%float /\
  variance 0.010000000000000002 0.10000000000000002 = (-1.7347234759768071e-18)%float /\
  (variance 0.010000000000000002 0.10000000000000002 <? 0)%float = true /\
  bind (normalize_stats sample_env acc_tenths) (fun r => getitem "std_dev" r) =
    Ok (VComplex 8.0648442379710582e-26 1.3170890159654386e-09).
Proof. repeat split; vm_compute; reflexivity. Qed.

(** C8: whenever the quotients [sum / count] and [sum_2 / count] exist and
    the power returns, [normalize_stats] returns, and the mean it stores is
    exactly the quotient [sum / count] of the host arithmetic.  For
    [count = 4], [sum = 40], [sum_2 = 408] the mean is [10.0] and the
    standard deviation is the host's [2.0 ** 0.5], the double nearest to the
    square root of 2 on a C library whose [pow] rounds correctly there. *)
Theorem normalize_mean_is_quotient :
  forall E : env,
    (forall d count s s2 mean q std,
       dict_get "count" d = Some count ->
       dict_get "sum" d = Some s ->
       dict_get "sum_2" d = Some s2 ->
       py_truediv s count = Ok mean ->
       py_truediv s2 count = Ok q ->
       float_pow_half E (variance q mean) = Ok std ->
       exists r,
         normalize_stats E (JObj d) = Ok r /\
         dict_get "mean" r = Some (VJ (JFloat mean)) /\
         dict_get "std_dev" r = Some std) /\
    (libm_pow E 2 0.5 = sqrt 2 ->
       exists r,
         normalize_stats E acc4 = Ok r /\
         dict_get "mean" r = Some (VJ (JFloat 10)) /\
         dict_get "std_dev" r = Some (VJ (JFloat (sqrt 2))) /\
         sqrt 2 = 1.4142135623730951%float).
Proof.
  intros E. split.
  - intros d count s s2 mean q std Hc Hs Hs2 Hm Hq Hp.
    rewrite (normalize_stats_unfold E d count s s2 mean q Hc Hs Hs2 Hm Hq), Hp.
    eexists. split; [reflexivity|].
    unfold dict_update, derived. simpl. split.
    + rewrite dict_get_set_ne by discriminate. apply dict_get_set_eq.
    + apply dict_get_set_eq.
  - intros Hpow. unfold acc4.
    rewrite (normalize_stats_unfold E _ (JInt 4) (JInt 40) (JInt 408)
               10%float 102%float) by reflexivity.
    rewrite float_pow_half_positive by reflexivity.
    change ((variance 102 10 =? 1)%float) with false. cbv zeta.
    change (variance 102 10) with 2%float. rewrite Hpow.
    change (is_infinity (sqrt 2)) with false. cbv iota.
    eexists. split; [reflexivity|].
    repeat split.
Qed.

Lemma normalize_scenario_witness :
  (exists r,
     normalize_stats sample_env acc4 = Ok r /\
     dict_get "mean" r = Some (VJ (JFloat 10)) /\
     dict_get "std_dev" r = Some (VJ (JFloat 1.4142135623730951))) /\
  (exists r,
     normalize_stats sample_env acc4 = Ok r /\
     dict_get "mean" r = Some (VJ (JFloat 10)) /\
     dict_get "std_dev" r = Some (VJ (JFloat (sqrt 2))) /\
     sqrt 2 = 1.4142135623730951%float).
Proof.
  split.
  - exact (proj1 (normalize_mean_is_quotient sample_env)
             [("count", JInt 4); ("sum", JInt 40); ("sum_2", JInt 408);
              ("min", JInt 1); ("max", JInt 19)]
             (JInt 4) (JInt 40) (JInt 408) 10%float 102%float
             (VJ (JFloat 1.4142135623730951))
             eq_refl eq_refl eq_refl eq_refl eq_refl eq_refl).
  - exact (proj2 (normalize_mean_is_quotient sample_env) eq_refl).
Defined.

(** C9: with [count = 0] and a numeric [sum], the first division raises
    [ZeroDivisionError], an [ArithmeticError]; nothing tests the count
    beforehand. *)
Theorem normalize_empty_accumulator_fails :
  forall (E : env) d s,
    dict_get "count" d = Some (JInt 0) ->
    dict_get "sum" d = Some s ->
    as_real s <> None ->
    normalize_stats E (JObj d) = Err ZeroDivisionError /\
    is_ArithmeticError ZeroDivisionError = true.
Proof.
  intros E d s Hc Hs Hreal. split; [|reflexivity].
  unfold normalize_stats, getitem. rewrite Hc, Hs. simpl.
  destruct s as [|b|z|f|t|l|o]; simpl in Hreal; try contradiction; reflexivity.
Qed.

Lemma normalize_empty_witness :
  normalize_stats sample_env acc_empty = Err ZeroDivisionError /\
  is_ArithmeticError ZeroDivisionError = true.
Proof.
  apply (normalize_empty_accumulator_fails sample_env
           [("count", JInt 0); ("sum", JInt 0); ("sum_2", JInt 0);
            ("min", JInt 0); ("max", JInt 0)] (JInt 0) eq_refl eq_refl).
  discriminate.
Defined.

(** C10: when [normalize_stats] returns, every entry of the accumulator
    other than [mean] and [std_dev] (so [min], [max], [count], [sum] and
    [sum_2]) is what it was, and the two derived entries are present. *)
Theorem normalize_keeps_accumulator_fields :
  forall (E : env) st r,
    normalize_stats E st = Ok r ->
    exists d,
      st = JObj d /\
      (forall k, k <> "mean" -> k <> "std_dev" ->
         dict_get k r = option_map VJ (dict_get k d)) /\
      dict_get "min" r = option_map VJ (dict_get "min" d) /\
      dict_get "max" r = option_map VJ (dict_get "max" d) /\
      dict_get "count" r = option_map VJ (dict_get "count" d) /\
      dict_get "sum" r = option_map VJ (dict_get "sum" d) /\
      dict_get "sum_2" r = option_map VJ (dict_get "sum_2" d) /\
      dict_get "mean" r <> None /\
      dict_get "std_dev" r <> None.
Proof.
  intros E st r H.
  assert (Hframe : forall k, k <> "mean" -> k <> "std_dev" ->
            exists d, st = JObj d /\ dict_get k r = option_map VJ (dict_get k d))
    by (intros k; apply normalize_stats_other_keys with (E := E); assumption).
  destruct (normalize_stats_inv E _ _ H)
    as (d & count & s & s2 & mean & q & std & Hst & _ & _ & _ & _ & _ & _ & Hr).
  exists d. split; [assumption|].
  assert (Hk : forall k, k <> "mean" -> k <> "std_dev" ->
            dict_get k r = option_map VJ (dict_get k d)).
  { intros k Hm Hs. destruct (Hframe k Hm Hs) as (d' & Hd' & Hget).
    rewrite Hst in Hd'. injection Hd' as <-. exact Hget. }
  split; [exact Hk|].
  repeat (split; [apply Hk; discriminate|]).
  subst r. unfold dict_update, derived. simpl. split.
  - rewrite dict_get_set_ne by discriminate. rewrite dict_get_set_eq. discriminate.
  - rewrite dict_get_set_eq. discriminate.
Qed.

Lemma normalize_keeps_fields_witness :
  exists d,
    acc4 = JObj d /\
    (forall k, k <> "mean" -> k <> "std_dev" ->
       dict_get k
         [("count", VJ (JInt 4)); ("sum", VJ (JInt 40));
          ("sum_2", VJ (JInt 408)); ("min", VJ (JInt 1));
          ("max", VJ (JInt 19)); ("mean", VJ (JFloat 10));
          ("std_dev", VJ (JFloat 1.4142135623730951))]
       = option_map VJ (dict_get k d)) /\
    dict_get "min" d = Some (JInt 1) /\
    dict_get "max" d = Some (JInt 19).
Proof.
  destruct (normalize_keeps_accumulator_fields sample_env acc4
              [("count", VJ (JInt 4)); ("sum", VJ (JInt 40));
               ("sum_2", VJ (JInt 408)); ("min", VJ (JInt 1));
               ("max", VJ (JInt 19)); ("mean", VJ (JFloat 10));
               ("std_dev", VJ (JFloat 1.4142135623730951))] eq_refl)
    as (d & Hd & Hk & _).
  exists d. split; [exact Hd|]. split; [exact Hk|].
  injection Hd as <-. split; reflexivity.
Defined.

(** ** Geodetic resolver *)

Lemma re_split_not_nil : forall s b, re_split b s <> [].
Proof.
  induction s as [|c r IH]; intros b; simpl; [discriminate|].
  destruct (GPS_RE_class c).
  - destruct b; [apply IH | discriminate].
  - destruct (re_split false r); discriminate.
Qed.




Lemma last_char_nonempty :
  forall s, s <> EmptyString -> exists h, last_char s = Ok h.
Proof.
  induction s as [|c r IH]; intros Hne; [contradiction|].
  destruct r as [|c' r'].
  - exists c. reflexivity.
  - destruct IH as [h Hh]; [discriminate|]. exists h. exact Hh.
Qed.

Lemma split_long_nonempty :
  forall s c0 c1 rest, GPS_RE_split s = c0 :: c1 :: rest -> s <> EmptyString.
Proof. intros s c0 c1 rest H ->. discriminate. Qed.

Lemma southern_or_western_iff :
  forall h, southern_or_western h = true <-> h = "S"%char \/ h = "W"%char.
Proof.
  intros h. unfold southern_or_western.
  rewrite orb_true_iff, !Ascii.eqb_eq. reflexivity.
Qed.

(** With three numeric fragments in front, the conversion returns. *)
Lemma degree_to_float_three :
  forall s c0 c1 c2 rest D M S,
    GPS_RE_split s = c0 :: c1 :: c2 :: rest ->
    float_of_fragment c0 = Ok D ->
    float_of_fragment c1 = Ok M ->
    float_of_fragment c2 = Ok S ->
    exists h,
      last_char s = Ok h /\
      degree_to_float s =
        Ok (if southern_or_western h
            then (- (D + M / 60 + S / 3600))%float
            else (D + M / 60 + S / 3600)%float).
Proof.
  intros s c0 c1 c2 rest D M S Hsplit H0 H1 H2.
  destruct (last_char_nonempty s (split_long_nonempty _ _ _ _ Hsplit)) as [h Hh].
  exists h. split; [exact Hh|].
  unfold degree_to_float. rewrite Hsplit. simpl.
  rewrite H0. simpl. rewrite H1. simpl. rewrite H2. simpl. rewrite Hh. reflexivity.
Qed.

Lemma float_of_fragment_error :
  forall f e, float_of_fragment f = Err e -> e = ValueError.
Proof.
  intros f e. unfold float_of_fragment.
  destruct (scan_decimal f 0 0 false false) as [[n k]|]; [discriminate|].
  now intros [= <-].
Qed.

Lemma is_number_ok :
  forall f, is_number f = true <-> exists x, float_of_fragment f = Ok x.
Proof.
  intros f. unfold is_number. destruct (float_of_fragment f) as [x|e]; simpl.
  - split; [intros _; now exists x | reflexivity].
  - split; [discriminate | intros [x Hx]; discriminate].
Qed.


(** C4: a string whose split starts with three numeric fragments [D], [M],
    [S] converts to [D + M/60 + S/3600], negated exactly when its last
    character is ['S'] or ['W']; the two strings of the specification convert
    to 40.44611111111111 and -79.98222222222222, within a millionth of the
    quoted 40.446111 and -79.982222. *)
Theorem degree_to_float_value :
  (forall s c0 c1 c2 rest D M S,
     GPS_RE_split s = c0 :: c1 :: c2 :: rest ->
     float_of_fragment c0 = Ok D ->
     float_of_fragment c1 = Ok M ->
     float_of_fragment c2 = Ok S ->
     exists h,
       last_char s = Ok h /\
       (southern_or_western h = true <-> h = "S"%char \/ h = "W"%char) /\
       degree_to_float s =
         Ok (if southern_or_western h
             then (- (D + M / 60 + S / 3600))%float
             else (D + M / 60 + S / 3600)%float)) /\
  degree_to_float lat_text = Ok 40.446111111111108%float /\
  (abs (40.446111111111108 - 40.446111) <? 0.000001)%float = true /\
  degree_to_float lon_text = Ok (-79.982222222222219)%float /\
  (abs (-79.982222222222219 - -79.982222) <? 0.000001)%float = true.
Proof.
  split; [|repeat split; vm_compute; reflexivity].
  intros s c0 c1 c2 rest D M S Hsplit H0 H1 H2.
  destruct (degree_to_float_three s c0 c1 c2 rest D M S Hsplit H0 H1 H2)
    as (h & Hh & Hval).
  exists h. split; [exact Hh|]. split; [apply southern_or_western_iff | exact Hval].
Qed.

Lemma degree_to_float_value_witness :
  exists h,
    last_char lon_text = Ok h /\
    (southern_or_western h = true <-> h = "S"%char \/ h = "W"%char) /\
    degree_to_float lon_text =
      Ok (if southern_or_western h
          then (- (79 + 58 / 60 + 56 / 3600))%float
          else (79 + 58 / 60 + 56 / 3600)%float).
Proof.
  exact (proj1 degree_to_float_value lon_text "79" "58" "56" [EmptyString]
           79%float 58%float 56%float eq_refl eq_refl eq_refl eq_refl).
Defined.




(** Without the hemisphere letter the same string does run out of
    fragments. *)
Example missing_seconds_and_letter : degree_to_float "40°26" = Err IndexError.
Proof. reflexivity. Qed.

(** ** Report assembler *)

Lemma bind_ok :
  forall (A B : Type) (r : result A) (k : A -> result B) b,
    bind r k = Ok b -> exists a, r = Ok a /\ k a = Ok b.
Proof.
  intros A B [a|e] k b H; [now exists a | discriminate].
Qed.

Lemma map_result_ok :
  forall (A B : Type) (f : A -> result B) l bs,
    map_result f l = Ok bs -> Forall2 (fun a b => f a = Ok b) l bs.
Proof.
  induction l as [|a l IH]; intros bs H; simpl in H.
  - injection H as <-. constructor.
  - apply bind_ok in H as (b & Hb & H).
    apply bind_ok in H as (bs' & Hbs & H).
    injection H as <-. constructor; [exact Hb | now apply IH].
Qed.

Lemma map_result_length :
  forall (A B : Type) (f : A -> result B) l bs,
    map_result f l = Ok bs -> List.length bs = List.length l.
Proof.
  intros A B f l bs H. apply map_result_ok in H.
  induction H; simpl; congruence.
Qed.

Lemma add_keys_sound :
  forall r cols c, In c (add_keys cols r) -> In c cols \/ In c (map fst r).
Proof.
  unfold add_keys.
  induction r as [|[k v] r IH]; intros cols c H; simpl in *; [now left|].
  apply IH in H as [H|H]; [|now right; right].
  destruct (existsb (String.eqb k) cols); [now left|].
  apply in_app_or in H as [H|[H|[]]]; [now left | now right; left].
Qed.

(** A column of the frame is a key of one of its rows. *)
Lemma DataFrame_columns_sound :
  forall rows c,
    In c (columns (DataFrame rows)) -> exists r, In r rows /\ dict_get c r <> None.
Proof.
  unfold DataFrame. simpl.
  assert (H : forall rows acc c,
             In c (fold_left add_keys rows acc) ->
             In c acc \/ exists r, In r rows /\ dict_get c r <> None).
  { induction rows as [|r rows IH]; intros acc c Hin; simpl in *; [now left|].
    apply IH in Hin as [Hin|(r' & Hr' & Hget)].
    - apply add_keys_sound in Hin as [Hin|Hin]; [now left|].
      right. exists r. split; [now left | now apply dict_get_in_keys].
    - right. exists r'. split; [now right | exact Hget]. }
  intros rows c Hin. apply H in Hin as [[]|Hin]. exact Hin.
Qed.

Lemma select_ok :
  forall df cols t,
    select df cols = Ok t ->
    t = {| header := cols; body := map (select_row cols) (data df) |}.
Proof.
  intros df cols t H. unfold select in H.
  destruct (forallb _ cols); [now injection H as <- | discriminate].
Qed.

(** Selecting a label that no row has raises [KeyError]. *)
Lemma select_missing :
  forall rows cols c,
    In c cols ->
    Forall (fun r => dict_get c r = None) rows ->
    select (DataFrame rows) cols = Err KeyError.
Proof.
  intros rows cols c Hc Hrows. unfold select.
  destruct (forallb _ cols) eqn:Hall; [|reflexivity].
  rewrite forallb_forall in Hall. specialize (Hall c Hc).
  apply existsb_exists in Hall as (c' & Hin & Heq).
  apply String.eqb_eq in Heq. subst c'.
  apply DataFrame_columns_sound in Hin as (r & Hr & Hget).
  rewrite Forall_forall in Hrows. now rewrite (Hrows r Hr) in Hget.
Qed.

Lemma dict_get_keys :
  forall (V : Type) (d : list (string * V)) k,
    dict_get k d <> None -> In k (map fst d).
Proof.
  induction d as [|[k' v'] d IH]; intros k H; simpl in *; [contradiction|].
  destruct (String.eqb k k') eqn:Hk.
  - apply String.eqb_eq in Hk. now left.
  - right. now apply IH.
Qed.

Lemma add_keys_complete :
  forall r cols c, In c cols \/ In c (map fst r) -> In c (add_keys cols r).
Proof.
  unfold add_keys.
  induction r as [|[k v] r IH]; intros cols c H; simpl in *.
  - destruct H as [H|[]]. exact H.
  - apply IH. destruct (existsb (String.eqb k) cols) eqn:Hk.
    + destruct H as [H|[<-|H]]; [now left | | now right].
      left. apply existsb_exists in Hk as (k' & Hin & Heq).
      apply String.eqb_eq in Heq. now subst k'.
    + destruct H as [H|[<-|H]]; [| | now right].
      * left. apply in_or_app. now left.
      * left. apply in_or_app. right. now left.
Qed.

(** Every key of every row is a column of the frame. *)
Lemma DataFrame_columns_complete :
  forall rows r c,
    In r rows -> dict_get c r <> None -> In c (columns (DataFrame rows)).
Proof.
  unfold DataFrame. simpl.
  assert (Hmono : forall rows acc c, In c acc -> In c (fold_left add_keys rows acc)).
  { induction rows as [|r rows IH]; intros acc c Hin; simpl; [exact Hin|].
    apply IH. apply add_keys_complete. now left. }
  assert (H : forall rows acc r c,
             In r rows -> dict_get c r <> None ->
             In c (fold_left add_keys rows acc)).
  { induction rows as [|r0 rows IH]; intros acc r c Hin Hget; simpl in *;
      [contradiction|].
    destruct Hin as [->|Hin].
    - apply Hmono. apply add_keys_complete. right. now apply dict_get_keys.
    - now apply IH with (r := r). }
  intros rows r c. apply H.
Qed.

(** Selecting labels that are all keys of some row returns the table. *)
Lemma select_present :
  forall rows cols,
    (forall c, In c cols -> exists r, In r rows /\ dict_get c r <> None) ->
    select (DataFrame rows) cols =
      Ok {| header := cols; body := map (select_row cols) rows |}.
Proof.
  intros rows cols H. unfold select.
  replace (forallb _ cols) with true; [reflexivity|].
  symmetry. apply forallb_forall. intros c Hc.
  destruct (H c Hc) as (r & Hr & Hget).
  apply existsb_exists. exists c. split; [|apply String.eqb_refl].
  now apply DataFrame_columns_complete with (r := r).
Qed.

Section MainFacts.
Variable E : env.

Lemma main_ok :
  forall a doc t,
    main E a doc = Ok t ->
    exists proj_t image_stats items df cumulative tot,
      make_transformer E a = Ok proj_t /\
      subscript "image_stats" doc = Ok image_stats /\
      iterate image_stats = Ok items /\
      map_result (process_record E a proj_t) items = Ok df /\
      subscript "cumulative" doc = Ok cumulative /\
      cumulative_row E cumulative = Ok tot /\
      t = {| header := output_cols a;
             body := map (select_row (output_cols a)) (df ++ [tot]) |}.
Proof.
  intros a doc t H. unfold main in H.
  apply bind_ok in H as (proj_t & Hp & H).
  apply bind_ok in H as (image_stats & Hi & H).
  apply bind_ok in H as (items & Hit & H).
  apply bind_ok in H as (df & Hdf & H).
  apply bind_ok in H as (cumulative & Hc & H).
  apply bind_ok in H as (tot & Ht & H).
  apply select_ok in H. simpl in H.
  exists proj_t, image_stats, items, df, cumulative, tot.
  repeat split; assumption.
Qed.

Lemma add_gps_coords_ok :
  forall stat proj_t r,
    add_gps_coords E stat proj_t = Ok r ->
    exists lat lon,
      let located :=
        dict_set "longitude" (VJ (JFloat lon))
          (dict_set "latitude" (VJ (JFloat lat)) stat) in
      match proj_t with
      | None => r = located
      | Some t =>
          exists east north,
            t lat lon = Ok (east, north) /\
            r = dict_set "northing" (VJ (JFloat north))
                  (dict_set "easting" (VJ (JFloat east)) located)
      end.
Proof.
  intros stat proj_t r H. unfold add_gps_coords in H.
  apply bind_ok in H as (exif & _ & H).
  apply bind_ok in H as (exif' & _ & H).
  apply bind_ok in H as (lat_s & _ & H).
  apply bind_ok in H as (lat & _ & H).
  apply bind_ok in H as (lon_s & _ & H).
  apply bind_ok in H as (lon & _ & H).
  exists lat, lon. destruct proj_t as [t|].
  - apply bind_ok in H as ([east north] & Ht & H).
    injection H as <-. exists east, north. split; [exact Ht | reflexivity].
  - now injection H as <-.
Qed.

Lemma process_record_ok :
  forall a proj_t im_stat r,
    process_record E a proj_t im_stat = Ok r ->
    exists d stats stat,
      im_stat = JObj d /\
      dict_get "stats" d = Some stats /\
      normalize_stats E stats = Ok stat /\
      let merged := dict_update (dict_set "stats" (VDict stat) (row_of_obj d)) stat in
      if gps a then add_gps_coords E merged proj_t = Ok r else r = merged.
Proof.
  intros a proj_t im_stat r H.
  destruct im_stat as [| | | | | |d]; try discriminate.
  unfold process_record in H.
  apply bind_ok in H as (stats & Hs & H).
  apply bind_ok in H as (stat & Hn & H).
  exists d, stats, stat. split; [reflexivity|].
  unfold getitem in Hs. destruct (dict_get "stats" d) as [st|]; [|discriminate].
  injection Hs as ->. split; [reflexivity|]. split; [exact Hn|].
  cbv zeta. destruct (gps a); [exact H | now injection H as <-].
Qed.

(** The merged record keeps, under a key that [normalize_stats] does not
    assign and that the statistics do not carry, what the record had. *)
Lemma merged_get :
  forall d sd stat k,
    normalize_stats E (JObj sd) = Ok stat ->
    k <> "mean" -> k <> "std_dev" -> k <> "stats" ->
    dict_get k sd = None ->
    dict_get k (dict_update (dict_set "stats" (VDict stat) (row_of_obj d)) stat)
    = option_map VJ (dict_get k d).
Proof.
  intros d sd stat k Hn Hm Hs Hst Hk.
  destruct (normalize_stats_other_keys E _ _ k Hn Hm Hs) as (sd' & Heq & Hget).
  injection Heq as <-. rewrite Hk in Hget. simpl in Hget.
  rewrite dict_get_update_absent by exact Hget.
  rewrite dict_get_set_ne by exact Hst.
  apply dict_get_row_of_obj.
Qed.
End MainFacts.

Lemma lacks_get :
  forall keys d k, lacks keys (JObj d) = true -> In k keys -> dict_get k d = None.
Proof.
  intros keys d k H Hin. unfold lacks in H. rewrite forallb_forall in H.
  specialize (H k Hin). unfold dict_has in H.
  destruct (dict_get k d); [discriminate | reflexivity].
Qed.

Lemma lacks_has :
  forall keys d k,
    lacks keys (JObj d) = true -> In k keys -> negb (dict_has k d) = true.
Proof.
  intros keys d k H Hin. unfold lacks in H. rewrite forallb_forall in H.
  now apply H.
Qed.

Lemma Forall2_nth_error :
  forall (A B : Type) (R : A -> B -> Prop) l l' i a,
    Forall2 R l l' -> nth_error l i = Some a ->
    exists b, nth_error l' i = Some b /\ R a b.
Proof.
  intros A B R l l' i a H. revert i.
  induction H as [|x y l l' Hxy _ IH]; intros i Hi.
  - destruct i; discriminate.
  - destruct i as [|i]; simpl in *.
    + injection Hi as <-. now exists y.
    + now apply IH.
Qed.

Lemma Forall2_length_eq :
  forall (A B : Type) (R : A -> B -> Prop) l l',
    Forall2 R l l' -> List.length l = List.length l'.
Proof. intros A B R l l' H. induction H; simpl; congruence. Qed.

Section AssemblerFacts.
Variable E : env.

Lemma cumulative_row_ok :
  forall cumulative tot,
    cumulative_row E cumulative = Ok tot ->
    exists r,
      normalize_stats E cumulative = Ok r /\
      tot = dict_set "path" (VJ (JStr "cumulative")) r.
Proof.
  intros cumulative tot H. unfold cumulative_row in H.
  apply bind_ok in H as (r & Hr & H). injection H as <-. now exists r.
Qed.

(** The cumulative row holds, under a key other than [path], [mean] and
    [std_dev], what the cumulative accumulator held. *)
Lemma cumulative_row_get :
  forall cumulative tot k,
    cumulative_row E cumulative = Ok tot ->
    k <> "path" -> k <> "mean" -> k <> "std_dev" ->
    exists cd,
      cumulative = JObj cd /\ dict_get k tot = option_map VJ (dict_get k cd).
Proof.
  intros cumulative tot k H Hp Hm Hs.
  apply cumulative_row_ok in H as (r & Hr & ->).
  destruct (normalize_stats_other_keys E _ _ k Hr Hm Hs) as (cd & -> & Hget).
  exists cd. split; [reflexivity|].
  now rewrite dict_get_set_ne by exact Hp.
Qed.

(** [add_gps_coords] assigns the two geographic entries, and the two
    projected ones only when it is given a transformer. *)
Lemma add_gps_coords_get :
  forall stat proj_t r k,
    add_gps_coords E stat proj_t = Ok r ->
    k <> "latitude" -> k <> "longitude" ->
    proj_t = None \/ (k <> "easting" /\ k <> "northing") ->
    dict_get k r = dict_get k stat.
Proof.
  intros stat proj_t r k H Hlat Hlon Hproj.
  apply add_gps_coords_ok in H as (lat & lon & H). cbv zeta in H.
  destruct proj_t as [t|].
  - destruct H as (east & north & _ & ->).
    destruct Hproj as [Hnone|[He Hn]]; [discriminate|].
    now rewrite !dict_get_set_ne by assumption.
  - subst r. now rewrite !dict_get_set_ne by assumption.
Qed.

(** A row keeps, under a key that no step assigns and that the statistics
    do not carry, what the image record had. *)
Lemma process_record_get :
  forall a proj_t d r k,
    process_record E a proj_t (JObj d) = Ok r ->
    (forall st, dict_get "stats" d = Some st -> lacks [k] st = true) ->
    k <> "mean" -> k <> "std_dev" -> k <> "stats" ->
    k <> "latitude" -> k <> "longitude" ->
    proj_t = None \/ (k <> "easting" /\ k <> "northing") ->
    dict_get k r = option_map VJ (dict_get k d).
Proof.
  intros a proj_t d r k H Hst Hm Hs Hstats Hlat Hlon Hproj.
  apply process_record_ok in H as (d' & stats & stat & Hd & Hget & Hn & H).
  injection Hd as <-. cbv zeta in H.
  destruct (normalize_stats_inv E _ _ Hn) as (sd & _ & _ & _ & _ & _ & _ & -> & _).
  assert (Hk : dict_get k sd = None)
    by (apply (lacks_get [k]); [now apply Hst | now left]).
  pose proof (merged_get E d sd stat k Hn Hm Hs Hstats Hk) as Hmerged.
  destruct (gps a).
  - rewrite (add_gps_coords_get _ _ _ k H Hlat Hlon Hproj). exact Hmerged.
  - subst r. exact Hmerged.
Qed.

(** Without a transformer no row receives a projected entry. *)
Lemma process_record_no_projection :
  forall a im_stat r k,
    process_record E a None im_stat = Ok r ->
    record_lacks proj_cols im_stat = true ->
    In k proj_cols ->
    dict_get k r = None.
Proof.
  intros a im_stat r k H Hlacks Hin.
  destruct (process_record_ok E _ _ _ _ H) as (d & stats & stat & -> & Hst & _).
  unfold record_lacks in Hlacks. rewrite Hst in Hlacks.
  apply andb_true_iff in Hlacks as [Hrec Hstats].
  assert (Hk : k = "easting" \/ k = "northing")
    by (destruct Hin as [<-|[<-|[]]]; auto).
  rewrite (process_record_get a None d r k H).
  - now rewrite (lacks_get proj_cols d k Hrec Hin).
  - intros st Hst'. rewrite Hst in Hst'. injection Hst' as <-.
    destruct stats as [| | | | | |sd]; try reflexivity.
    simpl. now rewrite (lacks_has proj_cols sd k Hstats Hin).
  - destruct Hk as [->| ->]; discriminate.
  - destruct Hk as [->| ->]; discriminate.
  - destruct Hk as [->| ->]; discriminate.
  - destruct Hk as [->| ->]; discriminate.
  - destruct Hk as [->| ->]; discriminate.
  - now left.
Qed.
End AssemblerFacts.

(** The scenario of the specification, run in each mode. *)
Example scenario_plain :
  main sample_env {| gps := false; epsg := None |} scenario = Ok table_plain.
Proof. vm_compute. reflexivity. Qed.

Example scenario_located :
  main sample_env {| gps := true; epsg := None |} scenario = Ok table_located.
Proof. vm_compute. reflexivity. Qed.

Example scenario_projected :
  main sample_env {| gps := true; epsg := Some 4326 |} scenario = Ok table_projected.
Proof. vm_compute. reflexivity. Qed.

(** C6 as stated fails for [n = 0]: with no image record at all the frame has
    the cumulative row only, so it has no [width] column, the selection
    raises [KeyError] and nothing is printed, where one line was promised. *)
Example no_images_fails :
  main sample_env {| gps := false; epsg := None |} no_images = Err KeyError.
Proof. vm_compute. reflexivity. Qed.

(** C2, as the code has it: a target system given without [--gps] is
    ignored.  No transformer is built, the base columns are selected, and
    the run is the run without a target system. *)
Theorem epsg_without_gps_is_ignored :
  forall (E : env) code doc,
    make_transformer E {| gps := false; epsg := Some code |} = Ok None /\
    output_cols {| gps := false; epsg := Some code |} = base_cols /\
    main E {| gps := false; epsg := Some code |} doc =
    main E {| gps := false; epsg := None |} doc.
Proof. intros E code doc. repeat split. Qed.

(** C2 as stated fails: asking for EPSG:32633 without [--gps] is not
    rejected; the run prints the plain report. *)
Lemma epsg_without_gps_runs :
  is_ok (main sample_env {| gps := false; epsg := Some 32633 |} scenario) = true /\
  main sample_env {| gps := false; epsg := Some 32633 |} scenario = Ok table_plain.
Proof. split; vm_compute; reflexivity. Qed.

(** C5: a run that prints a table prints exactly the columns of its mode,
    every line with one cell per column: the seven base columns without
    [--gps]; those and [latitude], [longitude] with [--gps] and no target
    system; those and [easting], [northing] with [--gps] and a target
    system; and nothing else. *)
Theorem output_columns_by_mode :
  forall (E : env) a doc t,
    main E a doc = Ok t ->
    header t = output_cols a /\
    Forall (fun cells => List.length cells = List.length (header t)) (body t) /\
    (gps a = false -> header t = base_cols) /\
    (gps a = true -> epsg a = None -> header t = base_cols ++ geo_cols) /\
    (gps a = true -> epsg a <> None ->
       header t = base_cols ++ geo_cols ++ proj_cols) /\
    (header t = base_cols \/
     header t = base_cols ++ geo_cols \/
     header t = base_cols ++ geo_cols ++ proj_cols).
Proof.
  intros E a doc t H.
  destruct (main_ok E a doc t H)
    as (proj_t & image_stats & items & df & cumulative & tot & _ & _ & _ & _ & _ & _ & ->).
  simpl. split; [reflexivity|]. split.
  - apply Forall_forall. intros cells Hin.
    apply in_map_iff in Hin as (r & <- & _).
    unfold select_row. apply length_map.
  - unfold output_cols. destruct (gps a), (epsg a) as [code|]; repeat split;
      try discriminate; try congruence; auto.
Qed.

Lemma output_columns_witness :
  header table_plain = base_cols /\
  header table_located = base_cols ++ geo_cols /\
  header table_projected = base_cols ++ geo_cols ++ proj_cols.
Proof.
  split; [|split].
  - exact (proj1 (proj2 (proj2
      (output_columns_by_mode sample_env {| gps := false; epsg := None |}
         scenario table_plain scenario_plain))) eq_refl).
  - exact (proj1 (proj2 (proj2 (proj2
      (output_columns_by_mode sample_env {| gps := true; epsg := None |}
         scenario table_located scenario_located)))) eq_refl eq_refl).
  - refine (proj1 (proj2 (proj2 (proj2 (proj2
      (output_columns_by_mode sample_env {| gps := true; epsg := Some 4326 |}
         scenario table_projected scenario_projected))))) eq_refl _).
    discriminate.
Defined.

(** A run over no image record at all, with a cumulative accumulator of the
    data model (no [width] entry), prints nothing: the frame has the
    cumulative row only and the selection of [width] fails. *)
Lemma no_records_no_table :
  forall (E : env) a doc cumulative,
    subscript "image_stats" doc = Ok (JList []) ->
    subscript "cumulative" doc = Ok cumulative ->
    lacks ["width"] cumulative = true ->
    forall t, main E a doc <> Ok t.
Proof.
  intros E a doc cumulative Hi Hc Hlacks t Ht.
  destruct (main_ok E a doc t Ht)
    as (proj_t & image_stats & items & rows & cumulative' & tot
        & _ & Hi' & Hit & Hrows & Hc' & Htot & _).
  rewrite Hi in Hi'. injection Hi' as <-. simpl in Hit. injection Hit as <-.
  simpl in Hrows. injection Hrows as <-.
  rewrite Hc in Hc'. injection Hc' as <-.
  assert (Hw : dict_get "width" tot = None).
  { destruct (cumulative_row_get E _ _ "width" Htot) as (cd & -> & ->);
      try discriminate.
    now rewrite (lacks_get ["width"] cd "width" Hlacks) by (now left). }
  unfold main in Ht.
  destruct (make_transformer E a) as [p|]; [|discriminate]. simpl in Ht.
  rewrite Hi in Ht. simpl in Ht. rewrite Hc in Ht. simpl in Ht.
  rewrite Htot in Ht. simpl in Ht.
  rewrite (select_missing [tot] (output_cols a) "width") in Ht; [discriminate| |].
  - unfold output_cols, base_cols. destruct (gps a); [destruct (epsg a)|]; simpl; auto.
  - repeat constructor. exact Hw.
Qed.

(** C6, as the code has it: a run over a list of [n] image records that
    prints a table prints [n + 1] lines.  Line [i] is the row made from record [i], carrying the
    record's own path unless its statistics bring a [path] of their own; the
    last line is the cumulative row, whose first cell is the path
    ["cumulative"] and whose geographic and projected entries are those of
    the cumulative accumulator read from the input, so absent when the
    accumulator has none.  The table is printed as soon as every record and
    the cumulative accumulator are processed and every selected column is an
    entry of some row. *)
Theorem rows_follow_records :
  forall (E : env) a doc records,
    subscript "image_stats" doc = Ok (JList records) ->
    (forall t,
       main E a doc = Ok t ->
       exists proj_t rows cumulative tot,
         make_transformer E a = Ok proj_t /\
         subscript "cumulative" doc = Ok cumulative /\
         cumulative_row E cumulative = Ok tot /\
         body t =
           map (select_row (output_cols a)) rows ++ [select_row (output_cols a) tot] /\
         List.length (body t) = (List.length records + 1)%nat /\
         (forall i im_stat,
            nth_error records i = Some im_stat ->
            exists d r,
              im_stat = JObj d /\
              process_record E a proj_t im_stat = Ok r /\
              nth_error (body t) i = Some (select_row (output_cols a) r) /\
              ((forall st, dict_get "stats" d = Some st -> lacks ["path"] st = true) ->
               dict_get "path" r = option_map VJ (dict_get "path" d))) /\
         nth_error (body t) (List.length records)
           = Some (select_row (output_cols a) tot) /\
         hd_error (select_row (output_cols a) tot)
           = Some (Some (VJ (JStr "cumulative"))) /\
         (forall k, In k (geo_cols ++ proj_cols) ->
            exists cd,
              cumulative = JObj cd /\
              dict_get k tot = option_map VJ (dict_get k cd)) /\
         (lacks (geo_cols ++ proj_cols) cumulative = true ->
          forall k, In k (geo_cols ++ proj_cols) -> dict_get k tot = None)) /\
    (forall proj_t rows cumulative tot,
       make_transformer E a = Ok proj_t ->
       map_result (process_record E a proj_t) records = Ok rows ->
       subscript "cumulative" doc = Ok cumulative ->
       cumulative_row E cumulative = Ok tot ->
       (forall c, In c (output_cols a) ->
          exists r, In r (rows ++ [tot]) /\ dict_get c r <> None) ->
       exists t,
         main E a doc = Ok t /\
         List.length (body t) = (List.length records + 1)%nat).
Proof.
  intros E a doc records Hrecords. split.
  - intros t H.
    destruct (main_ok E a doc t H)
      as (proj_t & image_stats & items & rows & cumulative & tot
          & Hp & Hi & Hit & Hrows & Hc & Htot & ->).
    rewrite Hrecords in Hi. injection Hi as <-. simpl in Hit. injection Hit as <-.
    pose proof (map_result_ok _ _ _ _ _ Hrows) as Hall.
    pose proof (Forall2_length_eq _ _ _ _ _ Hall) as Hlen.
    assert (Hgeo : forall k, In k (geo_cols ++ proj_cols) ->
              exists cd, cumulative = JObj cd /\
                         dict_get k tot = option_map VJ (dict_get k cd)).
    { intros k Hk. apply cumulative_row_get with (E := E); [exact Htot| | |];
        simpl in Hk; intuition (subst; discriminate). }
    exists proj_t, rows, cumulative, tot. simpl.
    split; [exact Hp|]. split; [exact Hc|]. split; [exact Htot|].
    split; [apply map_app|].
    split; [rewrite length_map, length_app; simpl; lia|].
    split; [|split; [|split; [|split]]].
    + intros i im_stat Hi.
      destruct (Forall2_nth_error _ _ _ _ _ _ _ Hall Hi) as (r & Hr & Hproc).
      destruct (process_record_ok E _ _ _ _ Hproc) as (d & _ & _ & -> & _).
      exists d, r. split; [reflexivity|]. split; [exact Hproc|]. split.
      * rewrite map_app, nth_error_app1
          by (rewrite length_map; apply nth_error_Some; congruence).
        now rewrite nth_error_map, Hr.
      * intros Hst.
        apply (process_record_get E a proj_t d r "path" Hproc Hst);
          try discriminate.
        right. split; discriminate.
    + rewrite map_app, nth_error_app2 by (rewrite length_map; lia).
      rewrite length_map, Hlen, Nat.sub_diag. reflexivity.
    + apply cumulative_row_ok in Htot as (r & _ & ->).
      unfold output_cols, base_cols.
      destruct (gps a); [destruct (epsg a)|]; simpl; now rewrite dict_get_set_eq.
    + exact Hgeo.
    + intros Hlacks k Hk. destruct (Hgeo k Hk) as (cd & -> & ->).
      now rewrite (lacks_get _ _ _ Hlacks Hk).
  - intros proj_t rows cumulative tot Hp Hrows Hc Htot Hcols.
    eexists. split.
    + unfold main. rewrite Hp. simpl. rewrite Hrecords. simpl.
      rewrite Hrows. simpl. rewrite Hc. simpl. rewrite Htot. simpl.
      apply select_present. exact Hcols.
    + simpl. rewrite length_map, length_app.
      rewrite (map_result_length _ _ _ _ _ Hrows). reflexivity.
Qed.

Example scenario_two_plain :
  main sample_env {| gps := false; epsg := None |} scenario_two = Ok table_two.
Proof. vm_compute. reflexivity. Qed.

Lemma rows_follow_records_witness :
  (exists proj_t rows cumulative tot,
     make_transformer sample_env {| gps := false; epsg := None |} = Ok proj_t /\
     subscript "cumulative" scenario_two = Ok cumulative /\
     cumulative_row sample_env cumulative = Ok tot /\
     body table_two =
       map (select_row base_cols) rows ++ [select_row base_cols tot] /\
     List.length (body table_two) = 3%nat /\
     (exists r,
        process_record sample_env {| gps := false; epsg := None |} proj_t record_a = Ok r /\
        nth_error (body table_two) 0 = Some (select_row base_cols r) /\
        dict_get "path" r = Some (VJ (JStr "a.jpg"))) /\
     (exists r,
        process_record sample_env {| gps := false; epsg := None |} proj_t record_b = Ok r /\
        nth_error (body table_two) 1 = Some (select_row base_cols r) /\
        dict_get "path" r = Some (VJ (JStr "b.jpg"))) /\
     nth_error (body table_two) 2 = Some (select_row base_cols tot) /\
     hd_error (select_row base_cols tot) = Some (Some (VJ (JStr "cumulative"))) /\
     (forall k, In k (geo_cols ++ proj_cols) -> dict_get k tot = None)) /\
  (exists t,
     main sample_env {| gps := true; epsg := None |} scenario = Ok t /\
     List.length (body t) = 2%nat).
Proof.
  split.
  - destruct (proj1 (rows_follow_records sample_env {| gps := false; epsg := None |}
                       scenario_two [record_a; record_b] eq_refl)
                table_two scenario_two_plain)
      as (proj_t & rows & cumulative & tot
          & Hp & Hc & Htot & Hbody & Hlen & Hrows & Hlast & Hhd & _ & Hgeo).
    exists proj_t, rows, cumulative, tot.
    split; [exact Hp|]. split; [exact Hc|]. split; [exact Htot|].
    split; [exact Hbody|]. split; [exact Hlen|].
    split; [|split; [|split; [exact Hlast | split; [exact Hhd|]]]].
    + destruct (Hrows 0%nat record_a eq_refl) as (d & r & Hd & Hr & Hnth & Hpath).
      exists r. split; [exact Hr|]. split; [exact Hnth|].
      injection Hd as <-. apply Hpath.
      intros st Hst. injection Hst as <-. reflexivity.
    + destruct (Hrows 1%nat record_b eq_refl) as (d & r & Hd & Hr & Hnth & Hpath).
      exists r. split; [exact Hr|]. split; [exact Hnth|].
      injection Hd as <-. apply Hpath.
      intros st Hst. injection Hst as <-. reflexivity.
    + apply Hgeo. simpl in Hc. injection Hc as <-. reflexivity.
  - eapply (proj2 (rows_follow_records sample_env {| gps := true; epsg := None |}
                     scenario [record_a] eq_refl)).
    + reflexivity.
    + vm_compute. reflexivity.
    + reflexivity.
    + vm_compute. reflexivity.
    + intros c Hc. eexists. split; [left; reflexivity|].
      simpl in Hc.
      repeat (destruct Hc as [<-|Hc]; [vm_compute; discriminate|]).
      contradiction.
Defined.

(** C7: with [--gps] and [--epsg 0] no transformer is built although the
    projected columns are selected.  On input whose records and cumulative
    accumulator do not themselves bring [easting] or [northing], no row has
    these entries, so a run that gets as far as selecting the columns fails
    there with [KeyError], and no run prints a table. *)
Theorem epsg_zero_fails_at_selection :
  forall (E : env) doc image_stats items cumulative,
    let a := {| gps := true; epsg := Some 0 |} in
    subscript "image_stats" doc = Ok image_stats ->
    iterate image_stats = Ok items ->
    subscript "cumulative" doc = Ok cumulative ->
    forallb (record_lacks proj_cols) items = true ->
    lacks proj_cols cumulative = true ->
    make_transformer E a = Ok None /\
    In "easting" (output_cols a) /\
    In "northing" (output_cols a) /\
    (forall rows tot,
       map_result (process_record E a None) items = Ok rows ->
       cumulative_row E cumulative = Ok tot ->
       Forall (fun r => dict_get "easting" r = None /\ dict_get "northing" r = None)
         (rows ++ [tot]) /\
       main E a doc = Err KeyError) /\
    (forall t, main E a doc <> Ok t).
Proof.
  intros E doc image_stats items cumulative a Hi Hit Hc Hrecs Hcum.
  assert (Hbuilt : forall rows tot,
            map_result (process_record E a None) items = Ok rows ->
            cumulative_row E cumulative = Ok tot ->
            Forall (fun r => dict_get "easting" r = None /\ dict_get "northing" r = None)
              (rows ++ [tot]) /\
            main E a doc = Err KeyError).
  { intros rows tot Hrows Htot.
    assert (Hnone : Forall (fun r => dict_get "easting" r = None /\
                                     dict_get "northing" r = None) (rows ++ [tot])).
    { apply Forall_app. split.
      - apply map_result_ok in Hrows. rewrite forallb_forall in Hrecs.
        clear Hi Hit. induction Hrows as [|im_stat r items rows Hr _ IH];
          constructor.
        + split;
            apply (process_record_no_projection E a im_stat r); try exact Hr;
            try (apply Hrecs; now left); simpl; auto.
        + apply IH. intros x Hx. apply Hrecs. now right.
      - constructor; [|constructor].
        split.
        + destruct (cumulative_row_get E _ _ "easting" Htot) as (cd & -> & ->);
            try discriminate.
          now rewrite (lacks_get proj_cols cd "easting" Hcum) by (simpl; auto).
        + destruct (cumulative_row_get E _ _ "northing" Htot) as (cd & -> & ->);
            try discriminate.
          now rewrite (lacks_get proj_cols cd "northing" Hcum) by (simpl; auto). }
    split; [exact Hnone|].
    unfold main. change (make_transformer E a) with (@Ok (option transformer) None).
    simpl. rewrite Hi. simpl. rewrite Hit. simpl. rewrite Hrows. simpl.
    rewrite Hc. simpl. rewrite Htot. simpl.
    apply select_missing with (c := "easting").
    - simpl. auto 20.
    - eapply Forall_impl; [|exact Hnone]. now intros r [He _]. }
  split; [reflexivity|].
  split; [simpl; auto 20|]. split; [simpl; auto 20|].
  split; [exact Hbuilt|].
  intros t Ht.
  destruct (main_ok E a doc t Ht)
    as (proj_t & image_stats' & items' & rows & cumulative' & tot
        & Hp & Hi' & Hit' & Hrows & Hc' & Htot & _).
  change (make_transformer E a) with (@Ok (option transformer) None) in Hp.
  injection Hp as <-.
  rewrite Hi in Hi'. injection Hi' as <-.
  rewrite Hit in Hit'. injection Hit' as <-.
  rewrite Hc in Hc'. injection Hc' as <-.
  destruct (Hbuilt rows tot Hrows Htot) as [_ Herr]. congruence.
Qed.

Lemma epsg_zero_witness :
  make_transformer sample_env {| gps := true; epsg := Some 0 |} = Ok None /\
  main sample_env {| gps := true; epsg := Some 0 |} scenario = Err KeyError /\
  (forall t, main sample_env {| gps := true; epsg := Some 0 |} scenario <> Ok t).
Proof.
  destruct (epsg_zero_fails_at_selection sample_env scenario
              (JList [record_a]) [record_a] acc4
              eq_refl eq_refl eq_refl eq_refl eq_refl)
    as (Hp & _ & _ & Hbuilt & Hnever).
  split; [exact Hp|]. split; [|exact Hnever].
  refine (proj2 (Hbuilt _ _ _ _)); vm_compute; reflexivity.
Defined.

(** * Further properties of the script *)

(** ** Dictionaries, continued *)

Section DictKeys.
Context {V : Type}.
Implicit Types (d e : list (string * V)) (k : string) (v : V).

Lemma dict_has_keys : forall d k, dict_has k d = true <-> In k (map fst d).
Proof.
  intros d k. unfold dict_has. split.
  - intros H. apply dict_get_keys. destruct (dict_get k d); [discriminate | discriminate].
  - intros H. apply dict_get_in_keys in H. destruct (dict_get k d); [reflexivity | contradiction].
Qed.

(** Assigning keeps the keys in place and appends a new key at the end. *)
Lemma dict_set_keys :
  forall d k v,
    map fst (dict_set k v d) =
      if dict_has k d then map fst d else map fst d ++ [k].
Proof.
  induction d as [|[k' v'] d IH]; intros k v; simpl; [reflexivity|].
  unfold dict_has. simpl.
  destruct (String.eqb k k') eqn:Hk; simpl.
  - apply String.eqb_eq in Hk. now subst.
  - rewrite IH. unfold dict_has. now destruct (dict_get k d).
Qed.

Lemma dict_has_set_ne :
  forall d k k' v, k <> k' -> dict_has k (dict_set k' v d) = dict_has k d.
Proof. intros d k k' v H. unfold dict_has. now rewrite dict_get_set_ne. Qed.

Lemma dict_set_NoDup :
  forall d k v, NoDup (map fst d) -> NoDup (map fst (dict_set k v d)).
Proof.
  intros d k v H. rewrite dict_set_keys.
  destruct (dict_has k d) eqn:Hk; [exact H|].
  apply NoDup_app; [exact H | repeat constructor; intros [] |].
  intros x Hx [<-|[]]. apply dict_has_keys in Hx. congruence.
Qed.

(** With distinct keys, [d.update(e)] leaves every entry of [e] in [d]. *)
Lemma dict_get_update_present :
  forall e d k v,
    NoDup (map fst e) -> dict_get k e = Some v ->
    dict_get k (dict_update d e) = Some v.
Proof.
  unfold dict_update.
  induction e as [|[k' v'] e IH]; intros d k v Hnd Hk; simpl in *; [discriminate|].
  inversion Hnd as [|? ? Hnotin Hnd']; subst.
  destruct (String.eqb k k') eqn:Hkk.
  - apply String.eqb_eq in Hkk. subst k'. injection Hk as <-.
    change (dict_get k (dict_update (dict_set k v' d) e) = Some v').
    rewrite dict_get_update_absent; [apply dict_get_set_eq|].
    destruct (dict_get k e) eqn:He; [|reflexivity].
    exfalso. apply Hnotin. apply dict_get_keys. congruence.
  - now apply IH.
Qed.
End DictKeys.

Lemma row_of_obj_keys : forall d, map fst (row_of_obj d) = map fst d.
Proof. intros d. unfold row_of_obj. rewrite map_map. reflexivity. Qed.

Lemma dict_has_row_of_obj : forall d k, dict_has k (row_of_obj d) = dict_has k d.
Proof.
  intros d k. unfold dict_has. rewrite dict_get_row_of_obj.
  now destruct (dict_get k d).
Qed.

(** ** Moment normaliser, continued *)

(** X1: what [normalize_stats] raises on a malformed accumulator, in the
    order the script meets the fault: anything but a dictionary is a
    [TypeError]; a missing [count] or [sum] is a [KeyError]; a [count] or
    [sum] that is not a number is a [TypeError]; a missing [sum_2], once the
    mean exists, is a [KeyError]; a [sum_2] that is not a number is a
    [TypeError]. *)
Theorem normalize_stats_malformed :
  forall (E : env),
    (forall st, (forall d, st <> JObj d) -> normalize_stats E st = Err TypeError) /\
    (forall d, dict_get "count" d = None ->
       normalize_stats E (JObj d) = Err KeyError) /\
    (forall d count, dict_get "count" d = Some count -> dict_get "sum" d = None ->
       normalize_stats E (JObj d) = Err KeyError) /\
    (forall d count s,
       dict_get "count" d = Some count -> dict_get "sum" d = Some s ->
       as_real count = None \/ as_real s = None ->
       normalize_stats E (JObj d) = Err TypeError) /\
    (forall d count s mean,
       dict_get "count" d = Some count -> dict_get "sum" d = Some s ->
       py_truediv s count = Ok mean -> dict_get "sum_2" d = None ->
       normalize_stats E (JObj d) = Err KeyError) /\
    (forall d count s mean s2,
       dict_get "count" d = Some count -> dict_get "sum" d = Some s ->
       py_truediv s count = Ok mean -> dict_get "sum_2" d = Some s2 ->
       as_real s2 = None ->
       normalize_stats E (JObj d) = Err TypeError).
Proof.
  intros E. repeat split.
  - intros st Hst. destruct st as [| | | | | |d]; try reflexivity.
    now destruct (Hst d).
  - intros d Hc. unfold normalize_stats, getitem. now rewrite Hc.
  - intros d count Hc Hs. unfold normalize_stats, getitem. now rewrite Hc, Hs.
  - intros d count s Hc Hs Hreal. unfold normalize_stats, getitem.
    rewrite Hc, Hs. simpl. unfold py_truediv.
    destruct Hreal as [Hr|Hr]; rewrite Hr; [|reflexivity].
    now destruct (as_real s) as [[x|x]|].
  - intros d count s mean Hc Hs Hm Hs2. unfold normalize_stats, getitem.
    rewrite Hc, Hs. simpl. rewrite Hm. simpl. now rewrite Hs2.
  - intros d count s mean s2 Hc Hs Hm Hs2 Hreal. unfold normalize_stats, getitem.
    rewrite Hc, Hs. simpl. rewrite Hm. simpl. rewrite Hs2. simpl.
    unfold py_truediv. now rewrite Hreal.
Qed.

(** X2: [normalize_stats] removes and reorders nothing: the keys of the
    returned dictionary are the keys of the accumulator in their order,
    followed by [mean] and then [std_dev] where the accumulator did not
    already have them. *)
Theorem normalize_stats_keys :
  forall (E : env) d r,
    normalize_stats E (JObj d) = Ok r ->
    map fst r =
      map fst d
      ++ (if dict_has "mean" d then [] else ["mean"])
      ++ (if dict_has "std_dev" d then [] else ["std_dev"]).
Proof.
  intros E d r H.
  destruct (normalize_stats_inv E _ _ H)
    as (d' & count & s & s2 & mean & q & std & Hd & _ & _ & _ & _ & _ & _ & ->).
  injection Hd as <-.
  unfold dict_update, derived. simpl.
  rewrite !dict_set_keys, dict_has_set_ne by discriminate.
  rewrite dict_has_row_of_obj, dict_has_row_of_obj, row_of_obj_keys.
  destruct (dict_has "mean" d), (dict_has "std_dev" d); simpl;
    rewrite ?app_nil_r, <- ?app_assoc; reflexivity.
Qed.

Lemma normalize_stats_keys_witness :
  map fst
    [("count", VJ (JInt 4)); ("sum", VJ (JInt 40));
     ("sum_2", VJ (JInt 408)); ("min", VJ (JInt 1));
     ("max", VJ (JInt 19)); ("mean", VJ (JFloat 10));
     ("std_dev", VJ (JFloat 1.4142135623730951))]
  = ["count"; "sum"; "sum_2"; "min"; "max"] ++ ["mean"] ++ ["std_dev"].
Proof.
  exact (normalize_stats_keys sample_env
           [("count", JInt 4); ("sum", JInt 40); ("sum_2", JInt 408);
            ("min", JInt 1); ("max", JInt 19)] _ eq_refl).
Defined.

(** The normaliser uses the two powers of the environment and nothing
    else of it. *)
Lemma normalize_stats_env :
  forall (E1 E2 : env) st,
    libm_pow E1 = libm_pow E2 ->
    complex_pow E1 = complex_pow E2 ->
    normalize_stats E1 st = normalize_stats E2 st.
Proof.
  intros E1 E2 st Hp Hc. unfold normalize_stats, float_pow_half.
  now rewrite Hp, Hc.
Qed.

Lemma map_result_ext :
  forall (A B : Type) (f g : A -> result B) l,
    (forall a, f a = g a) -> map_result f l = map_result g l.
Proof.
  intros A B f g l H. induction l as [|a l IH]; simpl; [reflexivity|].
  now rewrite H, IH.
Qed.

(** X3: without [--gps] the script opens no file and builds no
    transformer: two environments with the same arithmetic give the same
    run, whatever their files and coordinate systems are and whether or not
    a target system is given. *)
Theorem main_without_gps_reads_nothing :
  forall (E1 E2 : env) code doc,
    libm_pow E1 = libm_pow E2 ->
    complex_pow E1 = complex_pow E2 ->
    main E1 {| gps := false; epsg := code |} doc =
    main E2 {| gps := false; epsg := code |} doc.
Proof.
  intros E1 E2 code doc Hp Hc. unfold main, cumulative_row. simpl.
  destruct (subscript "image_stats" doc) as [image_stats|]; [|reflexivity]. simpl.
  destruct (iterate image_stats) as [items|]; [|reflexivity]. simpl.
  rewrite (map_result_ext _ _
             (process_record E1 {| gps := false; epsg := code |} None)
             (process_record E2 {| gps := false; epsg := code |} None)).
  - destruct (map_result _ items) as [df|]; [|reflexivity]. simpl.
    destruct (subscript "cumulative" doc) as [cumulative|]; [|reflexivity]. simpl.
    now rewrite (normalize_stats_env E1 E2 cumulative Hp Hc).
  - intros im_stat. unfold process_record. simpl.
    destruct im_stat as [| | | | | |d]; try reflexivity.
    destruct (getitem "stats" d) as [stats|]; [|reflexivity]. simpl.
    now rewrite (normalize_stats_env E1 E2 stats Hp Hc).
Qed.

Lemma main_without_gps_witness :
  main offline_env {| gps := false; epsg := Some 32633 |} scenario = Ok table_plain.
Proof.
  rewrite <- (main_without_gps_reads_nothing sample_env offline_env
                (Some 32633) scenario eq_refl eq_refl).
  vm_compute. reflexivity.
Defined.

(** ** Geodetic resolver, continued *)

Local Open Scope string_scope.

Lemma append_empty_r : forall s : string, s ++ "" = s.
Proof. induction s as [|c s IH]; simpl; [reflexivity | now rewrite IH]. Qed.

Lemma append_assoc :
  forall a b c : string, (a ++ b) ++ c = a ++ (b ++ c).
Proof. induction a as [|x a IH]; intros b c; simpl; [reflexivity | now rewrite IH]. Qed.

Lemma class_not_numeric : forall c, GPS_RE_class c = negb (numeric_char c).
Proof. reflexivity. Qed.

(** A string of digits and dots is not split. *)
Lemma re_split_all_numeric :
  forall s b, all_chars numeric_char s = true -> re_split b s = [s].
Proof.
  induction s as [|c r IH]; intros b H; simpl in *; [reflexivity|].
  apply andb_true_iff in H as [Hc Hr].
  rewrite class_not_numeric, Hc. simpl. now rewrite (IH false Hr).
Qed.

(** A numeric prefix goes in front of the first fragment of what follows. *)
Lemma re_split_numeric_prefix :
  forall f r,
    all_chars numeric_char f = true ->
    re_split false (f ++ r) =
      (f ++ hd "" (re_split false r)) :: tl (re_split false r).
Proof.
  induction f as [|c f IH]; intros r H; simpl in *.
  - pose proof (re_split_not_nil r false). now destruct (re_split false r).
  - apply andb_true_iff in H as [Hc Hf].
    rewrite class_not_numeric, Hc. simpl. now rewrite (IH r Hf).
Qed.

(** After a match, a fragment that starts with a digit or a dot is split as
    from the start. *)
Lemma re_split_after_match :
  forall f r,
    all_chars numeric_char f = true -> nonempty f = true ->
    re_split true (f ++ r) = re_split false (f ++ r).
Proof.
  intros [|c f] r H Hne; [discriminate|]. simpl in *.
  apply andb_true_iff in H as [Hc _]. now rewrite class_not_numeric, Hc.
Qed.

(** A run of separators inside a match is skipped. *)
Lemma re_split_skip_run :
  forall g r, all_chars GPS_RE_class g = true -> re_split true (g ++ r) = re_split true r.
Proof.
  induction g as [|c g IH]; intros r H; simpl in *; [reflexivity|].
  apply andb_true_iff in H as [Hc Hg]. rewrite Hc. now apply IH.
Qed.

(** A run of separators ends the current fragment. *)
Lemma re_split_run :
  forall g r,
    all_chars GPS_RE_class g = true -> nonempty g = true ->
    re_split false (g ++ r) = "" :: re_split true r.
Proof.
  intros [|c g] r H Hne; [discriminate|]. simpl in *.
  apply andb_true_iff in H as [Hc Hg]. rewrite Hc.
  now rewrite re_split_skip_run.
Qed.

(** One separator more in a run changes nothing. *)
Lemma re_split_longer_run :
  forall a b c1 c2 r,
    GPS_RE_class c1 = true -> GPS_RE_class c2 = true ->
    re_split b (a ++ String c1 (String c2 r)) = re_split b (a ++ String c1 r).
Proof.
  induction a as [|x a IH]; intros b c1 c2 r H1 H2; simpl.
  - rewrite H1, H2. reflexivity.
  - destruct (GPS_RE_class x).
    + destruct b; now rewrite IH.
    + now rewrite IH.
Qed.

(** Which separator ends the string does not matter to the split. *)
Lemma re_split_last_separator :
  forall t b c c',
    GPS_RE_class c = true -> GPS_RE_class c' = true ->
    re_split b (t ++ String c "") = re_split b (t ++ String c' "").
Proof.
  induction t as [|x t IH]; intros b c c' H H'; simpl.
  - now rewrite H, H'.
  - destruct (GPS_RE_class x).
    + destruct b; now rewrite (IH _ c c').
    + now rewrite (IH _ c c').
Qed.

Lemma last_char_app :
  forall t r, r <> "" -> last_char (t ++ r) = last_char r.
Proof.
  induction t as [|x t IH]; intros r Hr; [reflexivity|].
  simpl. specialize (IH r Hr).
  destruct (t ++ r) as [|y z] eqn:Htr.
  - destruct t; simpl in Htr; [contradiction | discriminate].
  - exact IH.
Qed.

Lemma degree_to_float_ok :
  forall s v,
    degree_to_float s = Ok v ->
    exists c0 c1 c2 rest D M S h,
      GPS_RE_split s = c0 :: c1 :: c2 :: rest /\
      float_of_fragment c0 = Ok D /\
      float_of_fragment c1 = Ok M /\
      float_of_fragment c2 = Ok S /\
      last_char s = Ok h /\
      v = if southern_or_western h
          then (- (D + M / 60 + S / 3600))%float
          else (D + M / 60 + S / 3600)%float.
Proof.
  intros s v H. unfold degree_to_float in H.
  destruct (GPS_RE_split s) as [|c0 [|c1 [|c2 rest]]] eqn:Hsplit; simpl in H;
    try discriminate.
  - destruct (float_of_fragment c0); discriminate.
  - destruct (float_of_fragment c0); [simpl in H|discriminate].
    destruct (float_of_fragment c1); discriminate.
  - destruct (float_of_fragment c0) as [D|] eqn:H0; [simpl in H|discriminate].
    destruct (float_of_fragment c1) as [M|] eqn:H1; [simpl in H|discriminate].
    destruct (float_of_fragment c2) as [S|] eqn:H2; [simpl in H|discriminate].
    destruct (last_char s) as [h|] eqn:Hh; [simpl in H|discriminate].
    injection H as <-.
    exists c0, c1, c2, rest, D, M, S, h. repeat split; assumption || reflexivity.
Qed.

(** X4: a string of digits and dots alone, such as decimal degrees, is one
    fragment, so the conversion fails: with [IndexError] when the string is a
    number, with [ValueError] when it is not (the empty string, two
    dots). *)
Theorem degree_to_float_unsplit :
  forall s,
    all_chars numeric_char s = true ->
    GPS_RE_split s = [s] /\
    degree_to_float s = Err (if is_number s then IndexError else ValueError).
Proof.
  intros s H.
  assert (Hsplit : GPS_RE_split s = [s]) by now apply re_split_all_numeric.
  split; [exact Hsplit|].
  unfold degree_to_float, is_number. rewrite Hsplit. simpl.
  destruct (float_of_fragment s) as [d|e] eqn:Hf; simpl; [reflexivity|].
  now rewrite (float_of_fragment_error _ _ Hf).
Qed.

Lemma degree_to_float_unsplit_witness :
  GPS_RE_split "40.446111" = ["40.446111"] /\
  degree_to_float "40.446111" = Err IndexError.
Proof. exact (degree_to_float_unsplit "40.446111" eq_refl). Defined.

(** X5: a string that starts with anything but a digit or a dot (a leading
    space, a hemisphere letter in front) has an empty first fragment, and the
    conversion fails with [ValueError] whatever follows. *)
Theorem degree_to_float_leading_separator :
  forall c r,
    GPS_RE_class c = true ->
    hd_error (GPS_RE_split (String c r)) = Some "" /\
    degree_to_float (String c r) = Err ValueError.
Proof.
  intros c r Hc. unfold degree_to_float, GPS_RE_split. simpl. rewrite Hc.
  split; reflexivity.
Qed.

Lemma degree_to_float_leading_separator_witness :
  hd_error (GPS_RE_split "N 40 26 46") = Some "" /\
  degree_to_float "N 40 26 46" = Err ValueError.
Proof. exact (degree_to_float_leading_separator "N" " 40 26 46" eq_refl). Defined.

(** X6: the length of a run of separators does not matter: with one
    separator more next to another the fragments are the same, and so is the
    converted value as long as the string does not end there. *)
Theorem separator_runs_collapse :
  forall a c1 c2 r,
    GPS_RE_class c1 = true -> GPS_RE_class c2 = true ->
    GPS_RE_split (a ++ String c1 (String c2 r)) = GPS_RE_split (a ++ String c1 r) /\
    (r <> "" ->
     degree_to_float (a ++ String c1 (String c2 r)) = degree_to_float (a ++ String c1 r)).
Proof.
  intros a c1 c2 r H1 H2.
  assert (Hsplit : GPS_RE_split (a ++ String c1 (String c2 r))
                   = GPS_RE_split (a ++ String c1 r))
    by now apply re_split_longer_run.
  split; [exact Hsplit|].
  intros Hr. unfold degree_to_float. rewrite Hsplit.
  assert (Hlast : last_char (a ++ String c1 (String c2 r)) = last_char (a ++ String c1 r)).
  { rewrite !last_char_app by discriminate.
    destruct r as [|x r]; [contradiction | reflexivity]. }
  now rewrite Hlast.
Qed.

Lemma separator_runs_collapse_witness :
  degree_to_float ("40°" ++ String " " (String " " ("26' 46" ++ dquote ++ " N")))
  = degree_to_float ("40°" ++ String " " ("26' 46" ++ dquote ++ " N")).
Proof.
  refine (proj2 (separator_runs_collapse "40°" " " " "
                   ("26' 46" ++ dquote ++ " N") eq_refl eq_refl) _).
  discriminate.
Defined.

(** X7: the character that ends the string decides the sign and nothing
    else.  If a string ending in a separator other than ['S'] and ['W']
    converts to [v], the same string ending in ['S'] or in ['W'] converts to
    [- v]; and with anything but ['S'] or ['W'] after that letter (a trailing
    space) the letter is a separator like any other and the value is [v]
    again. *)
Theorem hemisphere_is_last_character :
  forall t c v,
    GPS_RE_class c = true ->
    southern_or_western c = false ->
    degree_to_float (t ++ String c "") = Ok v ->
    degree_to_float (t ++ "S") = Ok (- v)%float /\
    degree_to_float (t ++ "W") = Ok (- v)%float /\
    degree_to_float (t ++ String "S" (String c "")) = Ok v /\
    degree_to_float (t ++ String "W" (String c "")) = Ok v.
Proof.
  intros t c v Hc Hsw H.
  destruct (degree_to_float_ok _ _ H)
    as (c0 & c1 & c2 & rest & D & M & S & h & Hsplit & H0 & H1 & H2 & Hh & ->).
  rewrite last_char_app in Hh by discriminate. simpl in Hh. injection Hh as <-.
  rewrite Hsw.
  assert (Hend : forall x, GPS_RE_class x = true ->
            degree_to_float (t ++ String x "") =
              Ok (if southern_or_western x
                  then (- (D + M / 60 + S / 3600))%float
                  else (D + M / 60 + S / 3600)%float)).
  { intros x Hx.
    assert (Hsx : GPS_RE_split (t ++ String x "") = c0 :: c1 :: c2 :: rest).
    { rewrite <- Hsplit. unfold GPS_RE_split.
      now apply re_split_last_separator. }
    destruct (degree_to_float_three _ _ _ _ _ _ _ _ Hsx H0 H1 H2) as (h & Hh & ->).
    rewrite last_char_app in Hh by discriminate. simpl in Hh. now injection Hh as <-. }
  assert (Hafter : forall x, GPS_RE_class x = true ->
            degree_to_float (t ++ String x (String c "")) =
              Ok (D + M / 60 + S / 3600)%float).
  { intros x Hx.
    assert (Hsx : GPS_RE_split (t ++ String x (String c "")) = c0 :: c1 :: c2 :: rest).
    { unfold GPS_RE_split. rewrite re_split_longer_run by assumption.
      rewrite <- Hsplit. unfold GPS_RE_split.
      now apply re_split_last_separator. }
    destruct (degree_to_float_three _ _ _ _ _ _ _ _ Hsx H0 H1 H2) as (h & Hh & ->).
    rewrite last_char_app in Hh by discriminate. simpl in Hh. injection Hh as <-.
    now rewrite Hsw. }
  split; [exact (Hend "S"%char eq_refl)|].
  split; [exact (Hend "W"%char eq_refl)|].
  split; [exact (Hafter "S"%char eq_refl) | exact (Hafter "W"%char eq_refl)].
Qed.

Lemma hemisphere_witness :
  degree_to_float ("40°26'46" ++ dquote ++ "S") = Ok (-40.446111111111108)%float /\
  degree_to_float ("40°26'46" ++ dquote ++ "S ") = Ok 40.446111111111108%float.
Proof.
  destruct (hemisphere_is_last_character ("40°26'46" ++ dquote) " "
              40.446111111111108%float eq_refl eq_refl eq_refl)
    as (HS & _ & HS' & _).
  split; [exact HS | exact HS'].
Defined.

(** X8: the conversion returns exactly when the split has at least three
    fragments and the first three are numbers; otherwise it raises
    [IndexError] or [ValueError] and nothing else. *)
Theorem degree_to_float_returns_iff :
  forall s,
    ((exists v, degree_to_float s = Ok v) <->
     (exists c0 c1 c2 rest,
        GPS_RE_split s = c0 :: c1 :: c2 :: rest /\
        is_number c0 = true /\ is_number c1 = true /\ is_number c2 = true)) /\
    (forall e, degree_to_float s = Err e -> e = IndexError \/ e = ValueError).
Proof.
  intros s. split; [split|].
  - intros [v Hv].
    destruct (degree_to_float_ok _ _ Hv)
      as (c0 & c1 & c2 & rest & D & M & S & h & Hsplit & H0 & H1 & H2 & _).
    exists c0, c1, c2, rest. split; [exact Hsplit|].
    repeat split; apply is_number_ok; eauto.
  - intros (c0 & c1 & c2 & rest & Hsplit & H0 & H1 & H2).
    apply is_number_ok in H0 as [D H0].
    apply is_number_ok in H1 as [M H1].
    apply is_number_ok in H2 as [S H2].
    destruct (degree_to_float_three _ _ _ _ _ _ _ _ Hsplit H0 H1 H2) as (h & _ & Hv).
    eauto.
  - intros e H. unfold degree_to_float in H.
    destruct (GPS_RE_split s) as [|c0 [|c1 [|c2 rest]]] eqn:Hsplit; simpl in H.
    + injection H as <-. now left.
    + destruct (float_of_fragment c0) eqn:H0; simpl in H.
      * injection H as <-. now left.
      * injection H as <-. right. eapply float_of_fragment_error; eassumption.
    + destruct (float_of_fragment c0) eqn:H0; simpl in H;
        [|injection H as <-; right; eapply float_of_fragment_error; eassumption].
      destruct (float_of_fragment c1) eqn:H1; simpl in H;
        [|injection H as <-; right; eapply float_of_fragment_error; eassumption].
      injection H as <-. now left.
    + destruct (float_of_fragment c0) eqn:H0; simpl in H;
        [|injection H as <-; right; eapply float_of_fragment_error; eassumption].
      destruct (float_of_fragment c1) eqn:H1; simpl in H;
        [|injection H as <-; right; eapply float_of_fragment_error; eassumption].
      destruct (float_of_fragment c2) eqn:H2; simpl in H;
        [|injection H as <-; right; eapply float_of_fragment_error; eassumption].
      destruct (last_char_nonempty s (split_long_nonempty _ _ _ _ Hsplit)) as [h Hh].
      rewrite Hh in H. discriminate.
Qed.

(** X9: the intended shape.  A string made of three strings of digits and
    dots [D], [M], [S] ([M] and [S] not empty), with a nonempty run of other
    characters after each of the first two and a closing run [s3] (a seconds
    mark, a hemisphere letter), splits into [D], [M], [S] and, when [s3] is not
    empty, a last empty fragment; it converts to the combination of the three
    numbers with the sign the last character gives. *)
Theorem sexagesimal_shape :
  forall D M S s1 s2 s3,
    all_chars numeric_char D = true ->
    all_chars numeric_char M = true -> nonempty M = true ->
    all_chars numeric_char S = true -> nonempty S = true ->
    all_chars GPS_RE_class s1 = true -> nonempty s1 = true ->
    all_chars GPS_RE_class s2 = true -> nonempty s2 = true ->
    all_chars GPS_RE_class s3 = true ->
    GPS_RE_split (D ++ s1 ++ M ++ s2 ++ S ++ s3) =
      (D :: M :: S :: if nonempty s3 then [""] else [])%list /\
    (forall d m sec h,
       float_of_fragment D = Ok d ->
       float_of_fragment M = Ok m ->
       float_of_fragment S = Ok sec ->
       last_char (S ++ s3) = Ok h ->
       degree_to_float (D ++ s1 ++ M ++ s2 ++ S ++ s3) =
         Ok (if southern_or_western h
             then (- (d + m / 60 + sec / 3600))%float
             else (d + m / 60 + sec / 3600)%float)).
Proof.
  intros D M S s1 s2 s3 HD HM HMne HS HSne H1 H1ne H2 H2ne H3.
  assert (Hsplit : GPS_RE_split (D ++ s1 ++ M ++ s2 ++ S ++ s3) =
                   (D :: M :: S :: if nonempty s3 then [""] else [])%list).
  { unfold GPS_RE_split.
    rewrite (re_split_numeric_prefix D _ HD).
    rewrite (re_split_run s1 _ H1 H1ne). simpl. rewrite append_empty_r.
    rewrite (re_split_after_match M _ HM HMne).
    rewrite (re_split_numeric_prefix M _ HM).
    rewrite (re_split_run s2 _ H2 H2ne). simpl. rewrite append_empty_r.
    rewrite (re_split_after_match S _ HS HSne).
    rewrite (re_split_numeric_prefix S _ HS).
    destruct s3 as [|x s3]; simpl.
    - now rewrite append_empty_r.
    - simpl in H3. apply andb_true_iff in H3 as [Hx H3]. rewrite Hx. simpl.
      rewrite append_empty_r.
      rewrite <- (append_empty_r s3), (re_split_skip_run s3 "" H3). reflexivity. }
  split; [exact Hsplit|].
  intros d m sec h Hd Hm Hsec Hh.
  assert (Hne : S ++ s3 <> "")
    by (destruct S; [discriminate | discriminate]).
  destruct (nonempty s3);
    destruct (degree_to_float_three _ _ _ _ _ _ _ _ Hsplit Hd Hm Hsec)
      as (h' & Hh' & ->);
    replace (D ++ s1 ++ M ++ s2 ++ S ++ s3)
      with ((D ++ s1 ++ M ++ s2) ++ (S ++ s3)) in Hh'
      by (now rewrite !append_assoc);
    rewrite last_char_app in Hh' by exact Hne;
    rewrite Hh in Hh'; now injection Hh' as <-.
Qed.

Lemma sexagesimal_shape_witness :
  GPS_RE_split lon_text = ["79"; "58"; "56"; ""]%list /\
  degree_to_float lon_text = Ok (- (79 + 58 / 60 + 56 / 3600))%float.
Proof.
  destruct (sexagesimal_shape "79" "58" "56" "°" "'" (dquote ++ "W")
              eq_refl eq_refl eq_refl eq_refl eq_refl
              eq_refl eq_refl eq_refl eq_refl eq_refl) as [Hsplit Hval].
  split; [exact Hsplit|].
  exact (Hval 79%float 58%float 56%float "W"%char eq_refl eq_refl eq_refl eq_refl).
Defined.

Local Open Scope list_scope.

(** X10: the EXIF document may be an object or a list that starts with the
    object; [add_gps_coords] does the same with both. *)
Theorem exif_object_or_list :
  forall (E1 E2 : env) stat proj_t path d rest,
    dict_get "path" stat = Some (VJ (JStr path)) ->
    load_file E1 path = Ok (JObj d) ->
    load_file E2 path = Ok (JList (JObj d :: rest)) ->
    add_gps_coords E1 stat proj_t = add_gps_coords E2 stat proj_t.
Proof.
  intros E1 E2 stat proj_t path d rest Hp H1 H2.
  unfold add_gps_coords, load_exif, getitem. rewrite Hp. simpl.
  rewrite H1, H2. reflexivity.
Qed.

Lemma exif_object_or_list_witness :
  add_gps_coords sample_env [("path", VJ (JStr "a.jpg"))] None =
  add_gps_coords wrapped_env [("path", VJ (JStr "a.jpg"))] None.
Proof.
  exact (exif_object_or_list sample_env wrapped_env
           [("path", VJ (JStr "a.jpg"))] None "a.jpg"
           [("GPSLatitude", JStr lat_text); ("GPSLongitude", JStr lon_text)] []
           eq_refl eq_refl eq_refl).
Defined.

(** X11: what a successful [add_gps_coords] has done.  The latitude and the
    longitude stored are the conversions of the [GPSLatitude] and
    [GPSLongitude] strings of the document; with a transformer the easting
    and northing stored are what it returns for (latitude, longitude), in
    this order; without one these two entries are left as they were; no
    other entry of the record is touched. *)
Theorem add_gps_coords_result :
  forall (E : env) stat proj_t r,
    add_gps_coords E stat proj_t = Ok r ->
    exists exif lat_s lon_s lat lon,
      (doc <- load_exif E stat ;; first_if_list doc) = Ok exif /\
      subscript "GPSLatitude" exif = Ok (JStr lat_s) /\
      degree_to_float lat_s = Ok lat /\
      subscript "GPSLongitude" exif = Ok (JStr lon_s) /\
      degree_to_float lon_s = Ok lon /\
      dict_get "latitude" r = Some (VJ (JFloat lat)) /\
      dict_get "longitude" r = Some (VJ (JFloat lon)) /\
      match proj_t with
      | Some t =>
          exists east north,
            t lat lon = Ok (east, north) /\
            dict_get "easting" r = Some (VJ (JFloat east)) /\
            dict_get "northing" r = Some (VJ (JFloat north))
      | None =>
          dict_get "easting" r = dict_get "easting" stat /\
          dict_get "northing" r = dict_get "northing" stat
      end /\
      (forall k,
         k <> "latitude" -> k <> "longitude" ->
         k <> "easting" -> k <> "northing" ->
         dict_get k r = dict_get k stat).
Proof.
  intros E stat proj_t r H. unfold add_gps_coords in H.
  apply bind_ok in H as (doc & Hdoc & H).
  apply bind_ok in H as (exif & Hexif & H).
  apply bind_ok in H as (lat_j & Hlat_j & H).
  apply bind_ok in H as (lat & Hlat & H).
  apply bind_ok in H as (lon_j & Hlon_j & H).
  apply bind_ok in H as (lon & Hlon & H).
  destruct lat_j as [| | | |lat_s| |]; try discriminate.
  destruct lon_j as [| | | |lon_s| |]; try discriminate.
  exists exif, lat_s, lon_s, lat, lon.
  split; [now rewrite Hdoc|].
  split; [exact Hlat_j|]. split; [exact Hlat|].
  split; [exact Hlon_j|]. split; [exact Hlon|].
  destruct proj_t as [t|].
  - apply bind_ok in H as ([east north] & Ht & H). injection H as <-.
    split; [now rewrite !dict_get_set_ne, dict_get_set_eq by discriminate|].
    split; [now rewrite !dict_get_set_ne, dict_get_set_eq by discriminate|].
    split.
    + exists east, north. split; [exact Ht|].
      split; [now rewrite dict_get_set_ne, dict_get_set_eq by discriminate|].
      apply dict_get_set_eq.
    + intros k H1 H2 H3 H4. now rewrite !dict_get_set_ne by assumption.
  - injection H as <-.
    split; [now rewrite dict_get_set_ne, dict_get_set_eq by discriminate|].
    split; [apply dict_get_set_eq|].
    split.
    + split; now rewrite !dict_get_set_ne by discriminate.
    + intros k H1 H2 H3 H4. now rewrite !dict_get_set_ne by assumption.
Qed.

Lemma add_gps_coords_result_witness :
  exists lat lon east north,
    degree_to_float lat_text = Ok lat /\
    degree_to_float lon_text = Ok lon /\
    (fun la lo => Ok (lo, la)) lat lon = Ok (east, north) /\
    east = (-79.982222222222219)%float /\
    north = 40.446111111111108%float.
Proof.
  destruct (add_gps_coords_result sample_env
              [("path", VJ (JStr "a.jpg"))]
              (Some (fun la lo => Ok (lo, la)))
              [("path", VJ (JStr "a.jpg"));
               ("latitude", VJ (JFloat 40.446111111111108));
               ("longitude", VJ (JFloat (-79.982222222222219)));
               ("easting", VJ (JFloat (-79.982222222222219)));
               ("northing", VJ (JFloat 40.446111111111108))]
              eq_refl)
    as (exif & lat_s & lon_s & lat & lon
        & Hexif & Hlat_s & Hlat & Hlon_s & Hlon & _ & _ & (east & north & Ht & He & Hn) & _).
  injection Hexif as <-.
  injection Hlat_s as <-. injection Hlon_s as <-.
  exists lat, lon, east, north.
  split; [exact Hlat|]. split; [exact Hlon|]. split; [exact Ht|].
  injection He as ->. injection Hn as ->. split; reflexivity.
Defined.

(** X12: what [add_gps_coords] raises, fault by fault: a record without
    [path] is a [KeyError]; a file that cannot be read fails as the read
    does; an empty list is an [IndexError]; a document that is not an object
    is a [TypeError]; a missing [GPSLatitude] or [GPSLongitude] is a
    [KeyError]; a field that is not a string is a [TypeError]; a string that
    does not convert fails as the conversion does; a transformer that fails
    fails the call. *)
Theorem add_gps_coords_failures :
  forall (E : env) stat proj_t,
    (dict_get "path" stat = None ->
       add_gps_coords E stat proj_t = Err KeyError) /\
    (forall path e,
       dict_get "path" stat = Some (VJ (JStr path)) -> load_file E path = Err e ->
       add_gps_coords E stat proj_t = Err e) /\
    (forall path,
       dict_get "path" stat = Some (VJ (JStr path)) -> load_file E path = Ok (JList []) ->
       add_gps_coords E stat proj_t = Err IndexError) /\
    (forall exif,
       (doc <- load_exif E stat ;; first_if_list doc) = Ok exif ->
       ((forall d, exif <> JObj d) -> add_gps_coords E stat proj_t = Err TypeError) /\
       (forall d, exif = JObj d -> dict_get "GPSLatitude" d = None ->
          add_gps_coords E stat proj_t = Err KeyError) /\
       (forall d lat_j, exif = JObj d -> dict_get "GPSLatitude" d = Some lat_j ->
          (forall s, lat_j <> JStr s) ->
          add_gps_coords E stat proj_t = Err TypeError) /\
       (forall d lat_s e, exif = JObj d -> dict_get "GPSLatitude" d = Some (JStr lat_s) ->
          degree_to_float lat_s = Err e ->
          add_gps_coords E stat proj_t = Err e) /\
       (forall d lat_s lat, exif = JObj d ->
          dict_get "GPSLatitude" d = Some (JStr lat_s) ->
          degree_to_float lat_s = Ok lat ->
          dict_get "GPSLongitude" d = None ->
          add_gps_coords E stat proj_t = Err KeyError) /\
       (forall d lat_s lat lon_s lon t e, exif = JObj d ->
          dict_get "GPSLatitude" d = Some (JStr lat_s) ->
          degree_to_float lat_s = Ok lat ->
          dict_get "GPSLongitude" d = Some (JStr lon_s) ->
          degree_to_float lon_s = Ok lon ->
          proj_t = Some t -> t lat lon = Err e ->
          add_gps_coords E stat proj_t = Err e)).
Proof.
  intros E stat proj_t. split; [|split; [|split]].
  - intros Hp. unfold add_gps_coords, load_exif, getitem. now rewrite Hp.
  - intros path e Hp Hl. unfold add_gps_coords, load_exif, getitem.
    rewrite Hp. simpl. now rewrite Hl.
  - intros path Hp Hl. unfold add_gps_coords, load_exif, getitem.
    rewrite Hp. simpl. now rewrite Hl.
  - intros exif Hexif.
    apply bind_ok in Hexif as (doc & Hdoc & Hfirst).
    unfold add_gps_coords. rewrite Hdoc. simpl. rewrite Hfirst. simpl.
    split; [|split; [|split; [|split; [|split]]]].
    + intros Hnot. destruct exif as [| | | | | |d]; try reflexivity.
      now destruct (Hnot d).
    + intros d -> Hlat. simpl. unfold getitem. now rewrite Hlat.
    + intros d lat_j -> Hlat Hnot. simpl. unfold getitem. rewrite Hlat. simpl.
      destruct lat_j as [| | | |s| |]; try reflexivity. now destruct (Hnot s).
    + intros d lat_s e -> Hlat Hconv. simpl. unfold getitem. rewrite Hlat. simpl.
      now rewrite Hconv.
    + intros d lat_s lat -> Hlat Hconv Hlon. simpl. unfold getitem.
      rewrite Hlat. simpl. rewrite Hconv. simpl. now rewrite Hlon.
    + intros d lat_s lat lon_s lon t e -> Hlat Hconv Hlon Hconv' -> Ht.
      simpl. unfold getitem. rewrite Hlat. simpl. rewrite Hconv. simpl.
      rewrite Hlon. simpl. rewrite Hconv'. simpl. now rewrite Ht.
Qed.

(** ** Report assembler, continued *)

Lemma map_result_first_failure :
  forall (A B : Type) (f : A -> result B) pre bad post rows e,
    map_result f pre = Ok rows -> f bad = Err e ->
    map_result f (pre ++ bad :: post) = Err e.
Proof.
  induction pre as [|a pre IH]; intros bad post rows e Hpre Hbad; simpl.
  - now rewrite Hbad.
  - simpl in Hpre. apply bind_ok in Hpre as (b & Hb & Hpre).
    apply bind_ok in Hpre as (bs & Hbs & _).
    rewrite Hb. simpl. now rewrite (IH bad post bs e Hbs Hbad).
Qed.

(** X13: the run stops at the first fault, in the order of the script.  The
    first record that cannot be processed fails the run with its own error,
    whatever the later records and the cumulative accumulator are; the
    cumulative accumulator is looked up and normalised only once every record
    has been processed, and its fault then fails the run. *)
Theorem main_stops_at_first_fault :
  forall (E : env) a doc proj_t records,
    make_transformer E a = Ok proj_t ->
    subscript "image_stats" doc = Ok (JList records) ->
    (forall pre bad post rows e,
       records = pre ++ bad :: post ->
       map_result (process_record E a proj_t) pre = Ok rows ->
       process_record E a proj_t bad = Err e ->
       main E a doc = Err e) /\
    (forall rows e,
       map_result (process_record E a proj_t) records = Ok rows ->
       (cumulative <- subscript "cumulative" doc ;; cumulative_row E cumulative) = Err e ->
       main E a doc = Err e).
Proof.
  intros E a doc proj_t records Hp Hi. split.
  - intros pre bad post rows e -> Hpre Hbad.
    unfold main. rewrite Hp. simpl. rewrite Hi. simpl.
    now rewrite (map_result_first_failure _ _ _ pre bad post rows e Hpre Hbad).
  - intros rows e Hrows Hcum.
    unfold main. rewrite Hp. simpl. rewrite Hi. simpl. rewrite Hrows. simpl.
    destruct (subscript "cumulative" doc) as [cumulative|e']; simpl in *.
    + now rewrite Hcum.
    + now injection Hcum as ->.
Qed.

Lemma main_stops_witness :
  main sample_env {| gps := false; epsg := None |} scenario_bad_record
  = Err ZeroDivisionError.
Proof.
  refine (proj1 (main_stops_at_first_fault sample_env
                   {| gps := false; epsg := None |} scenario_bad_record None
                   [record_a; record_empty; record_a] eq_refl eq_refl)
            [record_a] record_empty [record_a] _ ZeroDivisionError eq_refl _ eq_refl).
  vm_compute. reflexivity.
Defined.

(** X14: [image_stats] has to be a list.  A number, a boolean or [null]
    cannot be iterated; a nonempty object gives its keys and a nonempty
    string its characters, and a string has no ['stats']: each of these fails
    the run with [TypeError]. *)
Theorem image_stats_must_be_list :
  forall (E : env) a doc proj_t v,
    make_transformer E a = Ok proj_t ->
    subscript "image_stats" doc = Ok v ->
    match v with
    | JList _ | JObj [] | JStr EmptyString => False
    | _ => True
    end ->
    main E a doc = Err TypeError.
Proof.
  intros E a doc proj_t v Hp Hi Hv.
  unfold main. rewrite Hp. simpl. rewrite Hi. simpl.
  destruct v as [| | | |s|l|d]; try reflexivity.
  - destruct s; [contradiction | reflexivity].
  - contradiction.
  - destruct d as [|[k j] d]; [contradiction | reflexivity].
Qed.

Lemma image_stats_must_be_list_witness :
  main sample_env {| gps := false; epsg := None |} scenario_keyed = Err TypeError.
Proof.
  exact (image_stats_must_be_list sample_env {| gps := false; epsg := None |}
           scenario_keyed None (JObj [("a.jpg", record_a)]) eq_refl eq_refl I).
Defined.

Lemma normalize_stats_NoDup :
  forall (E : env) sd stat,
    NoDup (map fst sd) -> normalize_stats E (JObj sd) = Ok stat ->
    NoDup (map fst stat).
Proof.
  intros E sd stat Hnd H.
  destruct (normalize_stats_inv E _ _ H)
    as (d & count & s & s2 & mean & q & std & Hd & _ & _ & _ & _ & _ & _ & ->).
  injection Hd as <-. unfold dict_update, derived. simpl.
  apply dict_set_NoDup, dict_set_NoDup. now rewrite row_of_obj_keys.
Qed.

(** Every entry of the normalised statistics other than the four position
    entries is in the row. *)
Lemma statistics_in_row :
  forall (E : env) a proj_t d sd r,
    process_record E a proj_t (JObj d) = Ok r ->
    dict_get "stats" d = Some (JObj sd) ->
    NoDup (map fst sd) ->
    exists stat,
      normalize_stats E (JObj sd) = Ok stat /\
      forall k v,
        dict_get k stat = Some v ->
        k <> "latitude" -> k <> "longitude" ->
        k <> "easting" -> k <> "northing" ->
        dict_get k r = Some v.
Proof.
  intros E a proj_t d sd r H Hst Hnd.
  apply process_record_ok in H as (d' & stats & stat & Hd & Hget & Hn & H).
  injection Hd as <-. rewrite Hst in Hget. injection Hget as <-.
  cbv zeta in H. exists stat. split; [exact Hn|].
  intros k v Hk Hlat Hlon He Hno.
  pose proof (normalize_stats_NoDup E sd stat Hnd Hn) as Hnd'.
  pose proof (dict_get_update_present stat
                (dict_set "stats" (VDict stat) (row_of_obj d)) k v Hnd' Hk) as Hmerged.
  destruct (gps a).
  - rewrite (add_gps_coords_get E _ _ _ k H Hlat Hlon); [exact Hmerged|].
    right. split; assumption.
  - subst r. exact Hmerged.
Qed.

(** X16: with [--gps], every image line of a printed table has a float in
    its [latitude] and [longitude] cells (the eighth and ninth), and with a
    nonzero target system also in its [easting] and [northing] cells (the
    tenth and eleventh). *)
Theorem image_lines_are_located :
  forall (E : env) a doc records t,
    gps a = true ->
    subscript "image_stats" doc = Ok (JList records) ->
    main E a doc = Ok t ->
    forall i,
      (i < List.length records)%nat ->
      exists cells lat lon,
        nth_error (body t) i = Some cells /\
        nth_error cells 7 = Some (Some (VJ (JFloat lat))) /\
        nth_error cells 8 = Some (Some (VJ (JFloat lon))) /\
        (forall code, epsg a = Some code -> code <> 0%Z ->
           exists east north,
             nth_error cells 9 = Some (Some (VJ (JFloat east))) /\
             nth_error cells 10 = Some (Some (VJ (JFloat north)))).
Proof.
  intros E a doc records t Hgps Hrecords H i Hi.
  destruct (main_ok E a doc t H)
    as (proj_t & image_stats & items & rows & cumulative & tot
        & Hp & Hi' & Hit & Hrows & _ & _ & ->).
  rewrite Hrecords in Hi'. injection Hi' as <-. simpl in Hit. injection Hit as <-.
  pose proof (map_result_ok _ _ _ _ _ Hrows) as Hall.
  destruct (nth_error records i) as [im_stat|] eqn:Hnth;
    [|apply nth_error_None in Hnth; lia].
  destruct (Forall2_nth_error _ _ _ _ _ _ _ Hall Hnth) as (r & Hr & Hproc).
  apply process_record_ok in Hproc as (d & stats & stat & _ & _ & _ & Hgeo).
  cbv zeta in Hgeo. rewrite Hgps in Hgeo.
  apply add_gps_coords_ok in Hgeo as (lat & lon & Hgeo). cbv zeta in Hgeo.
  exists (select_row (output_cols a) r), lat, lon. simpl.
  split.
  { rewrite map_app, nth_error_app1
      by (rewrite length_map; apply nth_error_Some; congruence).
    now rewrite nth_error_map, Hr. }
  unfold make_transformer in Hp. rewrite Hgps in Hp.
  unfold output_cols. rewrite Hgps.
  destruct (epsg a) as [code|] eqn:Hepsg.
  - destruct (code =? 0)%Z eqn:Hcode.
    + injection Hp as <-. subst r. simpl.
      split; [now rewrite dict_get_set_ne, dict_get_set_eq by discriminate|].
      split; [now rewrite dict_get_set_eq|].
      intros code' Hc' Hne. injection Hc' as <-.
      apply Z.eqb_eq in Hcode. contradiction.
    + apply bind_ok in Hp as (tr & _ & Hp). injection Hp as <-.
      destruct Hgeo as (east & north & _ & ->). simpl.
      split; [now rewrite !dict_get_set_ne, dict_get_set_eq by discriminate|].
      split; [now rewrite !dict_get_set_ne, dict_get_set_eq by discriminate|].
      intros _ _ _. exists east, north.
      split; [now rewrite dict_get_set_ne, dict_get_set_eq by discriminate|].
      now rewrite dict_get_set_eq.
  - injection Hp as <-. subst r. simpl.
    split; [now rewrite dict_get_set_ne, dict_get_set_eq by discriminate|].
    split; [now rewrite dict_get_set_eq|].
    intros code Hc. discriminate.
Qed.

Lemma image_lines_are_located_witness :
  exists cells lat lon,
    nth_error (body table_projected) 0 = Some cells /\
    nth_error cells 7 = Some (Some (VJ (JFloat lat))) /\
    nth_error cells 8 = Some (Some (VJ (JFloat lon))) /\
    exists east north,
      nth_error cells 9 = Some (Some (VJ (JFloat east))) /\
      nth_error cells 10 = Some (Some (VJ (JFloat north))).
Proof.
  destruct (image_lines_are_located sample_env {| gps := true; epsg := Some 4326 |}
              scenario [record_a] table_projected eq_refl eq_refl
              scenario_projected 0%nat (Nat.lt_0_succ 0))
    as (cells & lat & lon & Hcells & Hlat & Hlon & Hproj).
  exists cells, lat, lon.
  split; [exact Hcells|]. split; [exact Hlat|]. split; [exact Hlon|].
  apply (Hproj 4326 eq_refl). discriminate.
Defined.

(** X17: the cumulative line has no size.  When the cumulative accumulator
    has no [width] and no [height] (it has none in the documents the script
    is written for), the last line of a printed table starts with the path
    ["cumulative"] followed by two missing values. *)
Theorem cumulative_line_has_no_size :
  forall (E : env) a doc records cumulative t,
    subscript "image_stats" doc = Ok (JList records) ->
    subscript "cumulative" doc = Ok cumulative ->
    lacks ["width"; "height"] cumulative = true ->
    main E a doc = Ok t ->
    exists cells,
      nth_error (body t) (List.length records) = Some cells /\
      last (body t) [] = cells /\
      nth_error cells 0 = Some (Some (VJ (JStr "cumulative"))) /\
      nth_error cells 1 = Some None /\
      nth_error cells 2 = Some None.
Proof.
  intros E a doc records cumulative t Hrecords Hc Hlacks H.
  destruct (main_ok E a doc t H)
    as (proj_t & image_stats & items & rows & cumulative' & tot
        & _ & Hi & Hit & Hrows & Hc' & Htot & ->).
  rewrite Hrecords in Hi. injection Hi as <-. simpl in Hit. injection Hit as <-.
  rewrite Hc in Hc'. injection Hc' as <-.
  pose proof (map_result_length _ _ _ _ _ Hrows) as Hlen.
  exists (select_row (output_cols a) tot). simpl.
  split; [|split].
  - rewrite map_app, nth_error_app2 by (rewrite length_map; lia).
    now rewrite length_map, Hlen, Nat.sub_diag.
  - rewrite map_app. simpl. apply last_last.
  - assert (Hw : dict_get "width" tot = None).
    { destruct (cumulative_row_get E _ _ "width" Htot) as (cd & -> & ->);
        try discriminate.
      now rewrite (lacks_get _ cd "width" Hlacks) by (simpl; auto). }
    assert (Hh : dict_get "height" tot = None).
    { destruct (cumulative_row_get E _ _ "height" Htot) as (cd & -> & ->);
        try discriminate.
      now rewrite (lacks_get _ cd "height" Hlacks) by (simpl; auto). }
    apply cumulative_row_ok in Htot as (r & _ & Htot).
    assert (Hpath : dict_get "path" tot = Some (VJ (JStr "cumulative")))
      by (subst tot; apply dict_get_set_eq).
    unfold output_cols, base_cols.
    destruct (gps a); [destruct (epsg a)|]; simpl; now rewrite Hpath, Hw, Hh.
Qed.

Lemma cumulative_line_witness :
  exists cells,
    nth_error (body table_plain) 1 = Some cells /\
    last (body table_plain) [] = cells /\
    nth_error cells 0 = Some (Some (VJ (JStr "cumulative"))) /\
    nth_error cells 1 = Some None /\
    nth_error cells 2 = Some None.
Proof.
  exact (cumulative_line_has_no_size sample_env {| gps := false; epsg := None |}
           scenario [record_a] acc4 table_plain eq_refl eq_refl eq_refl
           scenario_plain).
Defined.

(** X18: once standard input has been parsed, the transformer is built
    before the parsed document is looked at.  With [--gps] and a nonzero
    code, a code that pyproj refuses fails the run with pyproj's error
    whatever the parsed document holds, and a code it accepts gives the
    transformer from EPSG:4326 to that code. *)
Theorem refused_code_fails_parsed_run :
  forall (E : env) a code,
    gps a = true -> epsg a = Some code -> code <> 0%Z ->
    (forall e doc, from_crs E 4326 code = Err e -> main E a doc = Err e) /\
    (forall t, from_crs E 4326 code = Ok t -> make_transformer E a = Ok (Some t)).
Proof.
  intros E a code Hgps Hepsg Hcode.
  assert (Hmk : make_transformer E a = (t <- from_crs E 4326 code ;; Ok (Some t))).
  { unfold make_transformer. rewrite Hgps, Hepsg.
    apply Z.eqb_neq in Hcode. now rewrite Hcode. }
  split.
  - intros e doc He. unfold main. now rewrite Hmk, He.
  - intros t Ht. now rewrite Hmk, Ht.
Qed.

Lemma refused_code_witness :
  main sample_env {| gps := true; epsg := Some 32633 |} JNull = Err CRSError.
Proof.
  refine (proj1 (refused_code_fails_parsed_run sample_env
                   {| gps := true; epsg := Some 32633 |} 32633 eq_refl eq_refl _)
            CRSError JNull eq_refl).
  discriminate.
Defined.

Lemma add_gps_coords_env :
  forall (E1 E2 : env) stat proj_t,
    load_file E1 = load_file E2 -> load_fd E1 = load_fd E2 ->
    add_gps_coords E1 stat proj_t = add_gps_coords E2 stat proj_t.
Proof.
  intros E1 E2 stat proj_t Hf Hd. unfold add_gps_coords, load_exif.
  now rewrite Hf, Hd.
Qed.

Lemma process_record_env :
  forall (E1 E2 : env) a proj_t im_stat,
    libm_pow E1 = libm_pow E2 -> complex_pow E1 = complex_pow E2 ->
    load_file E1 = load_file E2 -> load_fd E1 = load_fd E2 ->
    process_record E1 a proj_t im_stat = process_record E2 a proj_t im_stat.
Proof.
  intros E1 E2 a proj_t im_stat Hp Hc Hf Hd. unfold process_record.
  destruct im_stat as [| | | | | |d]; try reflexivity.
  destruct (getitem "stats" d) as [stats|]; [|reflexivity]. simpl.
  rewrite (normalize_stats_env E1 E2 stats Hp Hc).
  destruct (normalize_stats E2 stats) as [stat|]; [|reflexivity]. simpl.
  destruct (gps a); [|reflexivity].
  now apply add_gps_coords_env.
Qed.

(** X19: pyproj is used only for a nonzero target system with [--gps].
    Without [--gps], without [--epsg] or with [--epsg 0], two environments
    that differ in their coordinate systems alone give the same run. *)
Theorem pyproj_only_when_asked :
  forall (E1 E2 : env) a doc,
    libm_pow E1 = libm_pow E2 -> complex_pow E1 = complex_pow E2 ->
    load_file E1 = load_file E2 -> load_fd E1 = load_fd E2 ->
    gps a = false \/ epsg a = None \/ epsg a = Some 0%Z ->
    main E1 a doc = main E2 a doc.
Proof.
  intros E1 E2 a doc Hp Hc Hf Hd Hmode.
  assert (Hmk : make_transformer E1 a = Ok None /\ make_transformer E2 a = Ok None).
  { unfold make_transformer.
    destruct Hmode as [->|[->| ->]]; [now split| |]; destruct (gps a); now split. }
  destruct Hmk as [Hmk1 Hmk2].
  unfold main, cumulative_row. rewrite Hmk1, Hmk2. simpl.
  destruct (subscript "image_stats" doc) as [image_stats|]; [|reflexivity]. simpl.
  destruct (iterate image_stats) as [items|]; [|reflexivity]. simpl.
  rewrite (map_result_ext _ _ (process_record E1 a None) (process_record E2 a None))
    by (intros im_stat; now apply process_record_env).
  destruct (map_result _ items) as [df|]; [|reflexivity]. simpl.
  destruct (subscript "cumulative" doc) as [cumulative|]; [|reflexivity]. simpl.
  now rewrite (normalize_stats_env E1 E2 cumulative Hp Hc).
Qed.

Lemma pyproj_only_when_asked_witness :
  main flat_env {| gps := true; epsg := None |} scenario = Ok table_located.
Proof.
  rewrite <- (pyproj_only_when_asked sample_env flat_env
                {| gps := true; epsg := None |} scenario
                eq_refl eq_refl eq_refl eq_refl (or_intror (or_introl eq_refl))).
  exact scenario_located.
Defined.

(** The entry of a row under a key that no step of the loop assigns: the
    entry of the statistics when they have one, the entry of the record
    otherwise. *)
Lemma process_record_entry :
  forall (E : env) a proj_t d sd r k,
    process_record E a proj_t (JObj d) = Ok r ->
    dict_get "stats" d = Some (JObj sd) ->
    NoDup (map fst sd) ->
    k <> "mean" -> k <> "std_dev" -> k <> "stats" ->
    k <> "latitude" -> k <> "longitude" ->
    k <> "easting" -> k <> "northing" ->
    dict_get k r =
      match dict_get k sd with
      | Some j => Some (VJ j)
      | None => option_map VJ (dict_get k d)
      end.
Proof.
  intros E a proj_t d sd r k H Hst Hnd Hm Hs Hstats Hlat Hlon He Hn.
  destruct (dict_get k sd) as [j|] eqn:Hk.
  - apply process_record_ok in H as (d' & stats & stat & Hd & Hget & Hnorm & H).
    injection Hd as <-. rewrite Hst in Hget. injection Hget as <-.
    cbv zeta in H.
    destruct (normalize_stats_other_keys E _ _ k Hnorm Hm Hs) as (sd' & Heq & Hkstat).
    injection Heq as <-. rewrite Hk in Hkstat. simpl in Hkstat.
    pose proof (normalize_stats_NoDup E sd stat Hnd Hnorm) as Hnd'.
    pose proof (dict_get_update_present stat
                  (dict_set "stats" (VDict stat) (row_of_obj d)) k (VJ j) Hnd' Hkstat)
      as Hmerged.
    destruct (gps a).
    + rewrite (add_gps_coords_get E _ _ _ k H Hlat Hlon); [exact Hmerged|].
      right. now split.
    + subst r. exact Hmerged.
  - apply (process_record_get E a proj_t d r k H); try assumption.
    + intros st Hst'. rewrite Hst in Hst'. injection Hst' as <-.
      simpl. unfold dict_has. now rewrite Hk.
    + right. now split.
Qed.

(** X15: the dictionary the loop appends for a record.  For a record whose
    statistics are an object with distinct keys, the dictionary holds under
    [path], [width], [height], [min] and [max] the entry of the statistics
    when they have one of that name and the entry of the record otherwise
    (the statistics win), and under [mean] and [std_dev] the entries of the
    normalised statistics. *)
Theorem image_row_entries :
  forall (E : env) a proj_t d sd r,
    process_record E a proj_t (JObj d) = Ok r ->
    dict_get "stats" d = Some (JObj sd) ->
    NoDup (map fst sd) ->
    let entry k :=
      match dict_get k sd with
      | Some j => Some (VJ j)
      | None => option_map VJ (dict_get k d)
      end in
    exists stat,
      normalize_stats E (JObj sd) = Ok stat /\
      dict_get "path" r = entry "path" /\
      dict_get "width" r = entry "width" /\
      dict_get "height" r = entry "height" /\
      dict_get "min" r = entry "min" /\
      dict_get "max" r = entry "max" /\
      dict_get "mean" r = dict_get "mean" stat /\
      dict_get "std_dev" r = dict_get "std_dev" stat /\
      dict_get "mean" stat <> None /\
      dict_get "std_dev" stat <> None.
Proof.
  intros E a proj_t d sd r Hproc Hst Hnd entry.
  destruct (statistics_in_row E a proj_t d sd r Hproc Hst Hnd) as (stat & Hnorm & Hwins).
  exists stat. split; [exact Hnorm|].
  assert (Hentry : forall k,
            k <> "mean" -> k <> "std_dev" -> k <> "stats" ->
            k <> "latitude" -> k <> "longitude" ->
            k <> "easting" -> k <> "northing" ->
            dict_get k r = entry k)
    by (intros k; now apply (process_record_entry E a proj_t d sd r k Hproc Hst Hnd)).
  repeat (split; [apply Hentry; discriminate|]).
  destruct (normalize_stats_inv E _ _ Hnorm)
    as (sd' & count & s & s2 & mean & q & std & _ & _ & _ & _ & _ & _ & _ & Hstat).
  assert (Hmean : dict_get "mean" stat = Some (VJ (JFloat mean))).
  { subst stat. unfold dict_update, derived. simpl.
    now rewrite dict_get_set_ne, dict_get_set_eq by discriminate. }
  assert (Hstd : dict_get "std_dev" stat = Some std).
  { subst stat. unfold dict_update, derived. simpl. apply dict_get_set_eq. }
  rewrite Hmean, Hstd.
  split; [apply Hwins; [exact Hmean | discriminate..]|].
  split; [apply Hwins; [exact Hstd | discriminate..]|].
  split; discriminate.
Qed.

Lemma image_row_entries_witness :
  exists r stat,
    process_record sample_env {| gps := false; epsg := None |} None record_shadowed = Ok r /\
    normalize_stats sample_env acc4 = Ok stat /\
    dict_get "path" r = Some (VJ (JStr "a.jpg")) /\
    dict_get "width" r = Some (VJ (JInt 10)) /\
    dict_get "min" r = Some (VJ (JInt 1)) /\
    dict_get "max" r = Some (VJ (JInt 19)) /\
    dict_get "mean" r = dict_get "mean" stat.
Proof.
  eexists.
  destruct (image_row_entries sample_env {| gps := false; epsg := None |} None
              [("path", JStr "a.jpg"); ("width", JInt 10); ("height", JInt 10);
               ("min", JInt 7); ("stats", acc4)]
              [("count", JInt 4); ("sum", JInt 40); ("sum_2", JInt 408);
               ("min", JInt 1); ("max", JInt 19)]
              _ eq_refl eq_refl)
    as (stat & Hstat & Hpath & Hwidth & _ & Hmin & Hmax & Hmean & _).
  - repeat constructor; simpl; intuition discriminate.
  - exists stat. split; [reflexivity|]. split; [exact Hstat|].
    split; [exact Hpath|]. split; [exact Hwidth|].
    split; [exact Hmin|]. split; [exact Hmax | exact Hmean].
Defined.
